(** * go-errors-node: Result tuples, the error taxonomy and the NestJS adapters

    A shallow embedding of the TypeScript sources

      - [src/types/result.types.ts]   (module [Types])
      - [src/core/result.ts]          (module [Core])
      - [src/core/errors.ts]          (module [Errors])
      - [src/utils/logger.ts]         (module [Logger])
      - [src/nestjs/exception-filter.ts]   (module [ExceptionFilter])
      - [src/nestjs/result-interceptor.ts] (module [ResultInterceptor])

    The code is dynamically typed at run time ([any], [in], [typeof],
    [||], object spread), so the embedding works over one type of
    JavaScript values; a TypeScript tuple [[T, E]] is a Rocq pair and a
    JavaScript object is a class tag with an insertion-ordered list of
    properties. *)

From Stdlib Require Import ZArith List String Ascii Bool Lia DecimalString.
From ExtLib Require Import Structures.Monad Structures.MonadExc.
Import ListNotations.
Import MonadNotation.
Local Open Scope string_scope.
Local Open Scope monad_scope.

Set Implicit Arguments.

(* ===================================================================== *)
(** ** JavaScript values *)
(* ===================================================================== *)

Module Js.

(** The classes whose instances the code creates or tests with
    [instanceof].  [HttpException] is the host framework's and
    [TypeError] the engine's, raised by a property read on [null] or
    [undefined]. *)
Inductive class : Type :=
| ObjectC
| ErrorC
| HttpExceptionC
| AppErrorC
| ValidationErrorC
| NotFoundErrorC
| UnauthorizedErrorC
| ForbiddenErrorC
| ConflictErrorC
| InternalErrorC
| ExternalServiceErrorC
| TimeoutErrorC
| TypeErrorC.

(** [class X extends Y]. *)
Definition extends (c : class) : option class :=
  match c with
  | ObjectC => None
  | ErrorC => Some ObjectC
  | HttpExceptionC => Some ErrorC
  | AppErrorC => Some ErrorC
  | TypeErrorC => Some ErrorC
  | ValidationErrorC | NotFoundErrorC | UnauthorizedErrorC
  | ForbiddenErrorC | ConflictErrorC | InternalErrorC
  | ExternalServiceErrorC | TimeoutErrorC => Some AppErrorC
  end.

(** [this.constructor.name]. *)
Definition class_name (c : class) : string :=
  match c with
  | ObjectC => "Object"
  | ErrorC => "Error"
  | HttpExceptionC => "HttpException"
  | AppErrorC => "AppError"
  | ValidationErrorC => "ValidationError"
  | NotFoundErrorC => "NotFoundError"
  | UnauthorizedErrorC => "UnauthorizedError"
  | ForbiddenErrorC => "ForbiddenError"
  | ConflictErrorC => "ConflictError"
  | InternalErrorC => "InternalError"
  | ExternalServiceErrorC => "ExternalServiceError"
  | TimeoutErrorC => "TimeoutError"
  | TypeErrorC => "TypeError"
  end.

Definition class_eqb (c d : class) : bool :=
  String.eqb (class_name c) (class_name d).

(** Walk of the prototype chain; the hierarchy is three levels deep. *)
Fixpoint inherits (fuel : nat) (c d : class) : bool :=
  class_eqb c d ||
  match fuel with
  | O => false
  | S fuel' =>
      match extends c with
      | Some c' => inherits fuel' c' d
      | None => false
      end
  end.

(** An object: its class and its own properties in insertion order. *)
Record object (V : Type) : Type := Obj {
  cls : class;
  props : list (string * V)
}.

(** Numbers are the integers (status codes, counters); [VDate] is a
    [Date] holding milliseconds since the epoch. *)
#[local] Set Warnings "-register-all".
Inductive value : Type :=
| VUndefined
| VNull
| VBool (b : bool)
| VNum (n : Z)
| VStr (s : string)
| VDate (ms : Z)
| VArr (items : list value)
| VObj (o : object value).

Definition obj : Type := object value.

(** [x instanceof C] *)
Definition instanceof (o : obj) (c : class) : bool :=
  inherits 3 (cls o) c.

(** [x === null], [x !== null], [x === false], [x === true],
    [x !== 'literal'], [x === 2]: strict equality against a primitive
    constant. *)
Definition is_null (v : value) : bool :=
  match v with VNull => true | _ => false end.

Definition is_false (v : value) : bool :=
  match v with VBool false => true | _ => false end.

Definition is_true (v : value) : bool :=
  match v with VBool true => true | _ => false end.

Definition is_string_lit (lit : string) (v : value) : bool :=
  match v with VStr s => String.eqb s lit | _ => false end.

Definition is_number_lit (lit : Z) (v : value) : bool :=
  match v with VNum n => Z.eqb n lit | _ => false end.

(** ToBoolean. *)
Definition truthy (v : value) : bool :=
  match v with
  | VUndefined | VNull => false
  | VBool b => b
  | VNum n => negb (Z.eqb n 0)
  | VStr s => negb (String.eqb s "")
  | VDate _ | VArr _ | VObj _ => true
  end.

(** [a || b] *)
Definition or_else (a b : value) : value :=
  if truthy a then a else b.

(** [typeof v] *)
Definition typeof (v : value) : string :=
  match v with
  | VUndefined => "undefined"
  | VNull | VDate _ | VArr _ | VObj _ => "object"
  | VBool _ => "boolean"
  | VNum _ => "number"
  | VStr _ => "string"
  end.

(** [Array.isArray(v)] *)
Definition isArray (v : value) : bool :=
  match v with VArr _ => true | _ => false end.

(** *** Property lists *)

Fixpoint lookup (k : string) (ps : list (string * value)) : option value :=
  match ps with
  | [] => None
  | (k', v) :: rest => if String.eqb k' k then Some v else lookup k rest
  end.

(** Assignment [o[k] = v]: an existing key keeps its position. *)
Fixpoint set_prop (k : string) (v : value) (ps : list (string * value))
  : list (string * value) :=
  match ps with
  | [] => [(k, v)]
  | (k', v') :: rest =>
      if String.eqb k' k then (k, v) :: rest
      else (k', v') :: set_prop k v rest
  end.

(** The entries of an object literal or of a spread, assigned in order. *)
Definition assign (ps entries : list (string * value)) : list (string * value) :=
  fold_left (fun acc kv => set_prop (fst kv) (snd kv) acc) entries ps.

Definition index_key (i : nat) : string :=
  NilEmpty.string_of_uint (Nat.to_uint i).

Fixpoint indexed (i : nat) (vs : list value) : list (string * value) :=
  match vs with
  | [] => []
  | v :: rest => (index_key i, v) :: indexed (S i) rest
  end.

Fixpoint chars (s : string) : list value :=
  match s with
  | EmptyString => []
  | String a rest => VStr (String a EmptyString) :: chars rest
  end.

(** The own properties [message] and [stack] that the [Error]
    constructor gives an error are not enumerable; the properties that
    the code assigns ([this.name = ..]) and those of a plain object
    are. *)
Definition enumerable (c : class) (k : string) : bool :=
  negb (inherits 3 c ErrorC
        && (String.eqb k "message" || String.eqb k "stack")).

(** Own enumerable properties: what [{...v}] copies and what
    [Object.keys(v)] lists.  [undefined], [null], booleans, numbers
    and dates contribute nothing. *)
Definition own_entries (v : value) : list (string * value) :=
  match v with
  | VObj o => filter (fun kv => enumerable (cls o) (fst kv)) (props o)
  | VArr items => indexed 0 items
  | VStr s => indexed 0 (chars s)
  | _ => []
  end.

Definition Object_keys (v : value) : list string :=
  List.map fst (own_entries v).

(** [k in o] for an object of one of the classes above: none of their
    prototypes defines the keys the code tests ([success], [context],
    [isOperational]), so the test is on own properties. *)
Definition has_prop (k : string) (o : obj) : bool :=
  match lookup k (props o) with Some _ => true | None => false end.

(** What [Error.prototype], or [TypeError.prototype] before it,
    supplies when an error object has no own [name] or [message]. *)
Definition prototype_get (k : string) (c : class) : value :=
  if inherits 3 c ErrorC then
    if String.eqb k "name"
    then VStr (if class_eqb c TypeErrorC then "TypeError" else "Error")
    else if String.eqb k "message" then VStr ""
    else VUndefined
  else VUndefined.

(** [o.k] on an object. *)
Definition get (k : string) (o : obj) : value :=
  match lookup k (props o) with
  | Some v => v
  | None => prototype_get k (cls o)
  end.

(** [k in v] where [v] has passed [v && typeof v === 'object']. *)
Definition in_ (k : string) (v : value) : bool :=
  match v with
  | VObj o => has_prop k o
  | VArr items =>
      String.eqb k "length" ||
      match lookup k (indexed 0 items) with Some _ => true | None => false end
  | _ => false
  end.

(** [v?.k], and [v.k] where [v] is neither [null] nor [undefined]. *)
Definition member (v : value) (k : string) : value :=
  match v with
  | VObj o => get k o
  | VArr items =>
      if String.eqb k "length" then VNum (Z.of_nat (List.length items))
      else match lookup k (indexed 0 items) with
           | Some x => x
           | None => VUndefined
           end
  | VStr s =>
      if String.eqb k "length" then VNum (Z.of_nat (String.length s))
      else match lookup k (indexed 0 (chars s)) with
           | Some x => x
           | None => VUndefined
           end
  | _ => VUndefined
  end.

(** A plain object literal. *)
Definition literal (entries : list (string * value)) : value :=
  VObj (Obj ObjectC (assign [] entries)).

(** What the code reads from the process and the clock:
    [new Date()], [Date.prototype.toISOString], [process.env.NODE_ENV]
    and the stack string the engine attaches to a new [Error]. *)
Record Runtime : Type := {
  clock : Z;
  toISOString : Z -> string;
  NODE_ENV : value;
  stackTrace : string
}.

(** Completion of a call: a returned value or a thrown one. *)
Inductive completion (A : Type) : Type :=
| Normal (a : A)
| Throw (thrown : value).

Arguments Throw {A} thrown.

(** The [TypeError] that V8 raises for the read [v.k] when [v] is
    [null] or [undefined]. *)
Definition TypeError (rt : Runtime) (v : value) (k : string) : obj :=
  Obj TypeErrorC
    [ ("message",
        VStr ("Cannot read properties of "
              ++ (match v with VNull => "null" | _ => "undefined" end)
              ++ " (reading '" ++ k ++ "')"));
      ("stack", VStr (stackTrace rt)) ].

(** The plain read [v.k]. *)
Definition read (rt : Runtime) (v : value) (k : string) : completion value :=
  match v with
  | VNull | VUndefined => Throw (VObj (TypeError rt v k))
  | _ => Normal (member v k)
  end.

End Js.

Import Js.

(* ===================================================================== *)
(** ** src/types/result.types.ts *)
(* ===================================================================== *)

Module Types.

(** [type Result<T, E> = [T, null] | [null, E]]: the two-slot tuple. *)
Definition Result : Type := (value * value)%type.

(** The tuple as the array it is at run time. *)
Definition to_array (r : Result) : value := VArr [fst r; snd r].

(** [result[1] !== null] *)
Definition hasError (result : Result) : bool :=
  negb (is_null (snd result)).

(** [result[0] !== null && result[1] === null] *)
Definition isSuccess (result : Result) : bool :=
  negb (is_null (fst result)) && is_null (snd result).

End Types.

(* ===================================================================== *)
(** ** src/core/errors.ts, the error taxonomy *)
(* ===================================================================== *)

Module Errors.

(** [new.target] is passed as [self]: the constructor reads
    [this.constructor.name].  [super(message)] gives the object its
    [message] and [stack]; an absent [context] or [originalError] is
    [undefined]. *)
Definition AppError_from (self : class) (rt : Runtime)
    (message : string) (context : value) (originalError : value)
    (isOperational : bool) : obj :=
  Obj self
    [ ("message", VStr message);
      ("stack", VStr (stackTrace rt));
      ("name", VStr (class_name self));
      ("context",
        literal (own_entries context ++ [("timestamp", VDate (clock rt))]));
      ("originalError", originalError);
      ("isOperational", VBool isOperational) ].

(** [new AppError(message, context?, originalError?, isOperational = true)] *)
Definition AppError (rt : Runtime) (message : string) (context : value)
    (originalError : value) (isOperational : bool) : obj :=
  AppError_from AppErrorC rt message context originalError isOperational.

Definition ValidationError (rt : Runtime) (message : string)
    (context : value) (originalError : value) : obj :=
  AppError_from ValidationErrorC rt message
    (literal (own_entries context ++
              [("code", VStr "VALIDATION_ERROR"); ("statusCode", VNum 400)]))
    originalError true.

Definition NotFoundError (rt : Runtime) (message : string)
    (context : value) (originalError : value) : obj :=
  AppError_from NotFoundErrorC rt message
    (literal (own_entries context ++
              [("code", VStr "NOT_FOUND"); ("statusCode", VNum 404)]))
    originalError true.

Definition UnauthorizedError (rt : Runtime) (message : string)
    (context : value) (originalError : value) : obj :=
  AppError_from UnauthorizedErrorC rt message
    (literal (own_entries context ++
              [("code", VStr "UNAUTHORIZED"); ("statusCode", VNum 401)]))
    originalError true.

Definition ForbiddenError (rt : Runtime) (message : string)
    (context : value) (originalError : value) : obj :=
  AppError_from ForbiddenErrorC rt message
    (literal (own_entries context ++
              [("code", VStr "FORBIDDEN"); ("statusCode", VNum 403)]))
    originalError true.

Definition ConflictError (rt : Runtime) (message : string)
    (context : value) (originalError : value) : obj :=
  AppError_from ConflictErrorC rt message
    (literal (own_entries context ++
              [("code", VStr "CONFLICT"); ("statusCode", VNum 409)]))
    originalError true.

Definition InternalError (rt : Runtime) (message : string)
    (context : value) (originalError : value) : obj :=
  AppError_from InternalErrorC rt message
    (literal (own_entries context ++
              [("code", VStr "INTERNAL_ERROR"); ("statusCode", VNum 500)]))
    originalError false.

Definition ExternalServiceError (rt : Runtime) (message : string)
    (context : value) (originalError : value) : obj :=
  AppError_from ExternalServiceErrorC rt message
    (literal (own_entries context ++
              [("code", VStr "EXTERNAL_SERVICE_ERROR"); ("statusCode", VNum 502)]))
    originalError true.

Definition TimeoutError (rt : Runtime) (message : string)
    (context : value) (originalError : value) : obj :=
  AppError_from TimeoutErrorC rt message
    (literal (own_entries context ++
              [("code", VStr "TIMEOUT"); ("statusCode", VNum 408)]))
    originalError true.

(** A plain [new Error(message)]. *)
Definition Error (rt : Runtime) (message : string) : obj :=
  Obj ErrorC [("message", VStr message); ("stack", VStr (stackTrace rt))].

End Errors.

(* ===================================================================== *)
(** ** src/core/result.ts, the tuple combinators *)
(* ===================================================================== *)

Module Core.
Import Types.

Definition Ok (data : value) : Result := (data, VNull).

Definition Err (error : value) : Result := (VNull, error).

Definition unwrap (result : Result) : completion value :=
  let '(data, error) := result in
  if negb (is_null error) then Throw error else Normal data.

Definition unwrapOr (result : Result) (defaultValue : value) : value :=
  let '(data, error) := result in
  if negb (is_null error) then defaultValue else data.

Definition map (result : Result) (fn : value -> value) : Result :=
  let '(data, error) := result in
  if negb (is_null error) then (VNull, error) else Ok (fn data).

Definition mapError (result : Result) (fn : value -> value) : Result :=
  let '(data, error) := result in
  if negb (is_null error) then Err (fn error) else (data, VNull).

Definition chain (result : Result) (fn : value -> Result) : Result :=
  let '(data, error) := result in
  if negb (is_null error) then (VNull, error) else fn data.

(** The [for ... of] loop of [combine]; [data] is the array being
    filled by [push]. *)
Fixpoint combine_loop (data : list value) (results : list Result) : Result :=
  match results with
  | [] => Ok (VArr data)
  | (value, error) :: rest =>
      if negb (is_null error) then (VNull, error)
      else combine_loop (data ++ [value]) rest
  end.

Definition combine (results : list Result) : Result :=
  combine_loop [] results.

(** [error.message], of TypeScript type [string], as the [Error]
    constructor receives it.  A message that is not a string, which
    the type excludes, would be turned into one there; it is read as
    the empty string here. *)
Definition message_of (error : obj) : string :=
  match get "message" error with
  | VStr s => s
  | _ => ""
  end.

Definition wrapError (rt : Runtime) (error : obj) (message : string)
    (context : value) : obj :=
  Errors.AppError rt message context (VObj error) true.

Definition enhanceError (rt : Runtime) (error : obj) (context : value) : obj :=
  if has_prop "context" error then error
  else Errors.AppError rt (message_of error) context (VObj error) true.

Definition isOperationalError (error : value) : bool :=
  if truthy error && String.eqb (typeof error) "object"
     && in_ "isOperational" error
  then is_true (member error "isOperational")
  else false.

End Core.

(* ===================================================================== *)
(** ** Effects of the adapters *)
(* ===================================================================== *)

Module Effects.

(** Severities of the pino logger. *)
Inductive Level : Type := LFatal | LError | LWarn | LInfo | LDebug.

(** What a request's error path does to the outside world, in order:
    records written to the log, [response.status(..)] and
    [response.json(..)]. *)
Inductive event : Type :=
| Logged (level : Level) (logObject : value) (msg : string)
| StatusSet (status : value)
| JsonSent (body : value).

(** A computation that performs events and then returns or throws. *)
Definition M (A : Type) : Type := (list event * completion A)%type.

Definition M_ret {A : Type} (a : A) : M A := ([], Normal a).

Definition M_bind {A B : Type} (c : M A) (f : A -> M B) : M B :=
  match c with
  | (t, Normal a) => let '(t', r) := f a in ((t ++ t')%list, r)
  | (t, Throw v) => (t, Throw v)
  end.

Definition M_raise {A : Type} (v : value) : M A := ([], Throw v).

Definition M_catch {A : Type} (c : M A) (h : value -> M A) : M A :=
  match c with
  | (t, Normal a) => (t, Normal a)
  | (t, Throw v) => let '(t', r) := h v in ((t ++ t')%list, r)
  end.

#[global] Instance Monad_M : Monad M :=
  {| ret := @M_ret; bind := @M_bind |}.

#[global] Instance Exc_M : MonadExc value M :=
  {| raise := @M_raise; catch := @M_catch |}.

Definition tell (e : event) : M unit := ([e], Normal tt).

(** A step that has no effect other than how it completes. *)
Definition lift {A : Type} (c : completion A) : M A := ([], c).

Definition trace {A : Type} (c : M A) : list event := fst c.

Definition outcome {A : Type} (c : M A) : completion A := snd c.

(** The JSON bodies a computation has sent. *)
Definition sent {A : Type} (c : M A) : list value :=
  flat_map (fun e => match e with JsonSent b => [b] | _ => [] end) (trace c).

(** The log records a computation has written. *)
Definition logged {A : Type} (c : M A) : list (Level * value * string) :=
  flat_map (fun e => match e with
                     | Logged l o m => [(l, o, m)]
                     | _ => []
                     end) (trace c).

End Effects.

Import Effects.

(* ===================================================================== *)
(** ** src/utils/logger.ts *)
(* ===================================================================== *)

Module Logger.

(** The pino instance an [ErrorLogger] holds is external.  A call of
    one of its level methods either writes the record ([None]) or
    raises ([Some thrown]). *)
Definition Pino : Type := Level -> value -> string -> option value.

Definition pino_call (logger : Pino) (level : Level) (logObject : value)
    (msg : string) : M unit :=
  match logger level logObject msg with
  | None => tell (Logged level logObject msg)
  | Some thrown => raise thrown
  end.

(** [{ name: e.name, message: e.message, stack: e.stack }] *)
Definition summary (e : value) : value :=
  literal [ ("name", member e "name");
            ("message", member e "message");
            ("stack", member e "stack") ].

(** The [logObject] that [logError] builds before it picks a level. *)
Definition logObject_of (error : obj) (additionalContext : value) : value :=
  let logObject :=
    assign [] (("error", summary (VObj error)) :: own_entries additionalContext) in
  let logObject :=
    if truthy (get "context" error)
    then set_prop "context" (get "context" error) logObject
    else logObject in
  let logObject :=
    if truthy (get "originalError" error)
    then set_prop "originalError" (summary (get "originalError" error)) logObject
    else logObject in
  VObj (Obj ObjectC logObject).

Definition logError (logger : Pino) (error : obj) (additionalContext : value)
    : M unit :=
  let logObject := logObject_of error additionalContext in
  if is_false (get "isOperational" error)
  then pino_call logger LFatal logObject "Programming Error"
  else pino_call logger LError logObject "Operational Error".

End Logger.

(* ===================================================================== *)
(** ** src/nestjs/exception-filter.ts, the inbound adapter *)
(* ===================================================================== *)

Module ExceptionFilter.

(** The fields of the express request that the filter reads. *)
Record Request : Type := {
  url : string;
  method : string
}.

(** [HttpException.getStatus()] and [.getResponse()] of the host
    framework return what the exception was constructed with, kept
    here as the properties [status] and [response].  [typeof null] is
    ['object'], so a [null] response reaches the reads of [message]
    and [error], the first of which raises. *)
Definition getStatus (exception : obj) : value := get "status" exception.

Definition getResponse (exception : obj) : value := get "response" exception.

(** The express response is external: the calls [response.status(..)]
    and [.json(..)] are recorded as they are made. *)
Definition response_status (status : value) : M unit := tell (StatusSet status).

Definition response_json (body : value) : M unit := tell (JsonSent body).

(** [process.env.NODE_ENV !== 'production'] *)
Definition not_production (rt : Runtime) : bool :=
  negb (is_string_lit "production" (NODE_ENV rt)).

(** The [errorResponse] object literal. *)
Definition errorResponse (rt : Runtime) (exception : obj) (request : Request)
    (status message code context : value) : value :=
  literal
    [ ("success", VBool false);
      ("error",
        literal
          ([ ("code", code);
             ("message", message);
             ("statusCode", status);
             ("timestamp", VStr (toISOString rt (clock rt)));
             ("path", VStr (url request)) ]
           ++ (if Nat.ltb 0 (List.length (Object_keys context))
               then [("context", context)] else [])
           ++ (if not_production rt
               then [("stack", get "stack" exception)] else []))) ].

(** The parameter is declared [Error | HttpException | AppError]: the
    exception is an object. *)
Definition catch (rt : Runtime) (logger : Logger.Pino) (exception : obj)
    (request : Request) : M unit :=
  let status := VNum 500 in
  let message := VStr "Internal server error" in
  let code := VStr "INTERNAL_ERROR" in
  let context := literal [] in
  '(status, message, code) <-
    (if instanceof exception HttpExceptionC then
       let status := getStatus exception in
       let exceptionResponse := getResponse exception in
       if String.eqb (typeof exceptionResponse) "string" then
         ret (status, exceptionResponse, code)
       else if String.eqb (typeof exceptionResponse) "object" then
         responseMessage <- lift (read rt exceptionResponse "message") ;;
         responseError <- lift (read rt exceptionResponse "error") ;;
         ret (status,
              or_else responseMessage message,
              or_else responseError code)
       else ret (status, message, code)
     else ret (status, message, code)) ;;
  '(status, message, code, context) <-
    (if instanceof exception AppErrorC then
       let status :=
         or_else (member (get "context" exception) "statusCode") status in
       let message := get "message" exception in
       let code := or_else (member (get "context" exception) "code") code in
       let context :=
         or_else (member (get "context" exception) "metadata") (literal []) in
       Logger.logError logger exception
         (literal [ ("path", VStr (url request));
                    ("method", VStr (method request));
                    ("statusCode", status) ]) ;;
       ret (status, message, code, context)
     else
       Logger.logError logger exception
         (literal [ ("path", VStr (url request));
                    ("method", VStr (method request));
                    ("statusCode", status);
                    ("isUnexpected", VBool true) ]) ;;
       ret (status, message, code, context)) ;;
  response_status status ;;
  response_json (errorResponse rt exception request status message code context).

End ExceptionFilter.

(* ===================================================================== *)
(** ** src/nestjs/result-interceptor.ts, the outbound adapter *)
(* ===================================================================== *)

Module ResultInterceptor.

(** [{ success: true, data, timestamp: new Date().toISOString() }] *)
Definition successResponse (rt : Runtime) (data : value) : value :=
  literal [ ("success", VBool true);
            ("data", data);
            ("timestamp", VStr (toISOString rt (clock rt))) ].

(** The function given to the [map] operator. *)
Definition project (rt : Runtime) (result : value) : completion value :=
  if truthy result && String.eqb (typeof result) "object" && in_ "success" result
  then Normal result
  else
    if isArray result && is_number_lit 2 (member result "length")
    then
      let data := member result "0" in
      let error := member result "1" in
      if negb (is_null error) then Throw error
      else Normal (successResponse rt data)
    else Normal (successResponse rt result).

(** [catchError((error) => throwError(() => error))] *)
Definition rethrow (c : completion value) : completion value :=
  match c with
  | Normal v => Normal v
  | Throw error => Throw error
  end.

(** [next.handle().pipe(map(..), catchError(..))] on the one
    notification the handler produces: its return value or its raise. *)
Definition intercept (rt : Runtime) (handled : completion value)
    : completion value :=
  rethrow
    match handled with
    | Normal result => project rt result
    | Throw error => Throw error
    end.

End ResultInterceptor.

(* ===================================================================== *)
(** ** src/core/result.ts, the wrapping primitives and the asynchronous
       combinators *)
(* ===================================================================== *)

Module Wrapping.
Import Types Core.

(** [fn()] for a thunk is how the call completes. *)
Definition trySync (fn : unit -> completion value) : Result :=
  match fn tt with
  | Normal result => Ok result
  | Throw error => Err error
  end.

(** A promise is represented by how it settles: fulfilled with a value
    ([Normal]) or rejected with a reason ([Throw]).  A promise that
    never settles is not represented.  [await p] in an [async] function
    continues with the value or rejects the function's own promise
    with the reason, unless a [try] encloses it. *)
Definition Promise (A : Type) : Type := completion A.

Definition AsyncResult : Type := Promise Result.

(** The call [fn()] may throw before it returns its promise; the [try]
    block encloses both the call and the [await]. *)
Definition tryAsync (fn : unit -> completion (Promise value)) : AsyncResult :=
  match fn tt with
  | Normal promise =>
      match promise with
      | Normal result => Normal (Ok result)
      | Throw error => Normal (Err error)
      end
  | Throw error => Normal (Err error)
  end.

Definition wrapPromise (promise : Promise value) : AsyncResult :=
  tryAsync (fun _ => Normal promise).

(** [fn] returns [U | Promise<U>]; a plain [U] is a fulfilled promise
    for [await]. *)
Definition mapAsync (result : AsyncResult)
    (fn : value -> completion (Promise value)) : AsyncResult :=
  match result with
  | Throw reason => Throw reason
  | Normal (data, error) =>
      if negb (is_null error) then Normal (VNull, error)
      else
        match fn data with
        | Normal (Normal mapped) => Normal (Ok mapped)
        | Normal (Throw reason) => Throw reason
        | Throw thrown => Throw thrown
        end
  end.

(** [return fn(data)]: the function's promise adopts the one [fn]
    returns. *)
Definition chainAsync (result : AsyncResult)
    (fn : value -> completion AsyncResult) : AsyncResult :=
  match result with
  | Throw reason => Throw reason
  | Normal (data, error) =>
      if negb (is_null error) then Normal (VNull, error)
      else
        match fn data with
        | Normal promise => promise
        | Throw thrown => Throw thrown
        end
  end.

(** The values of the promises when all of them are fulfilled. *)
Fixpoint fulfilled {A : Type} (promises : list (Promise A)) : option (list A) :=
  match promises with
  | [] => Some []
  | Normal a :: rest =>
      match fulfilled rest with
      | Some values => Some (a :: values)
      | None => None
      end
  | Throw _ :: _ => None
  end.

(** The reasons of the promises that are rejected, in list order. *)
Fixpoint rejections {A : Type} (promises : list (Promise A)) : list value :=
  match promises with
  | [] => []
  | Normal _ :: rest => rejections rest
  | Throw reason :: rest => reason :: rejections rest
  end.

(** [Promise.all] is fulfilled with the values in input order when all
    inputs are, and otherwise rejected with the reason of the input
    that is rejected first in time.  Time is not represented, so
    [combineAsync] returns the settlements that are possible: one when
    all inputs are fulfilled, otherwise one per rejected input. *)
Definition combineAsync (results : list AsyncResult) : list (Promise Result) :=
  match fulfilled results with
  | Some resolved => [Normal (combine resolved)]
  | None => List.map (fun reason => Throw reason) (rejections results)
  end.

End Wrapping.

(* ===================================================================== *)
(** ** src/core/errors.ts, [AppError.toJSON] *)
(* ===================================================================== *)

Module ErrorsJson.

Definition toJSON (this : obj) : value :=
  literal
    [ ("name", get "name" this);
      ("message", get "message" this);
      ("context", get "context" this);
      ("stack", get "stack" this);
      ("isOperational", get "isOperational" this);
      ("originalError",
        if truthy (get "originalError" this)
        then literal [ ("name", member (get "originalError" this) "name");
                       ("message", member (get "originalError" this) "message");
                       ("stack", member (get "originalError" this) "stack") ]
        else VUndefined) ].

End ErrorsJson.

(* ===================================================================== *)
(** ** src/utils/logger.ts, the options handed to pino *)
(* ===================================================================== *)

Module LoggerOptions.

(** [ErrorLoggerOptions] after the destructuring
    [{ prettify = false, redactPaths = [], ...pinoOptions }]. *)
Record ErrorLoggerOptions : Type := {
  prettify : option bool;
  redactPaths : option (list string);
  pinoOptions : list (string * value)
}.

(** [options || {}] *)
Definition no_options : ErrorLoggerOptions :=
  {| prettify := None; redactPaths := None; pinoOptions := [] |}.

Definition default_paths : list string :=
  ["password"; "token"; "authorization"; "cookie"; "secret"].

(** The entries of the [baseOptions] literal. *)
Definition baseOptions (options : ErrorLoggerOptions) : list (string * value) :=
  let redactPaths :=
    match redactPaths options with Some paths => paths | None => [] end in
  pinoOptions options ++
  [ ("redact",
      literal [ ("paths", VArr (List.map VStr (default_paths ++ redactPaths)));
                ("remove", VBool true) ]) ].

(** The argument of the call [pino(..)] in the constructor. *)
Definition constructor (rt : Runtime) (options : option ErrorLoggerOptions)
    : value :=
  let options := match options with Some o => o | None => no_options end in
  let prettify :=
    match prettify options with Some b => b | None => false end in
  if prettify && negb (is_string_lit "production" (NODE_ENV rt)) then
    literal
      (baseOptions options ++
       [ ("transport",
           literal [ ("target", VStr "pino-pretty");
                     ("options",
                       literal [ ("colorize", VBool true);
                                 ("translateTime", VStr "SYS:standard");
                                 ("ignore", VStr "pid,hostname") ]) ]) ])
  else literal (baseOptions options).

End LoggerOptions.

(* ===================================================================== *)
(** ** src/nestjs/decorators.ts *)
(* ===================================================================== *)

Module Decorators.

(** The function given to [createParamDecorator], on [request.result]. *)
Definition UnwrapResult (result : value) : completion value :=
  if isArray result && is_number_lit 2 (member result "length")
  then
    let value := member result "0" in
    let error := member result "1" in
    if negb (is_null error) then Throw error else Normal value
  else Normal result.









End Decorators.

(* ===================================================================== *)
(** ** src/nestjs/go-errors.module.ts *)
(* ===================================================================== *)

Module GoErrorsModule.

(** Injection tokens. *)
Inductive token : Type :=
| GO_ERRORS_OPTIONS
| ERROR_LOGGER
| ErrorLogger
| APP_FILTER
| APP_INTERCEPTOR.

(** What a provider supplies for its token. *)
Inductive supply : Type :=
| TheOptions
| TheLogger
| NewGoStyleExceptionFilter
| ResultInterceptor
| ErrorLoggingInterceptor.

Inductive how : Type := useValue | useFactory | useClass.

Record Provider : Type := {
  provide : token;
  via : how;
  supplies : supply;
  inject : list token
}.

(** The [logger] field of the options goes to [initializeLogger] and
    has no part in the list of providers. *)
Record GoErrorsModuleOptions : Type := {
  useResultInterceptor : option bool;
  useErrorLoggingInterceptor : option bool
}.

(** [forRoot(options = {})]: the [providers] of the dynamic module. *)
Definition forRoot (options : option GoErrorsModuleOptions) : list Provider :=
  let options :=
    match options with
    | Some o => o
    | None => {| useResultInterceptor := None;
                 useErrorLoggingInterceptor := None |}
    end in
  let useResultInterceptor :=
    match useResultInterceptor options with Some b => b | None => true end in
  let useErrorLoggingInterceptor :=
    match useErrorLoggingInterceptor options with Some b => b | None => false end in
  let providers :=
    [ {| provide := GO_ERRORS_OPTIONS; via := useValue;
         supplies := TheOptions; inject := [] |};
      {| provide := ERROR_LOGGER; via := useValue;
         supplies := TheLogger; inject := [] |};
      {| provide := ErrorLogger; via := useValue;
         supplies := TheLogger; inject := [] |};
      {| provide := APP_FILTER; via := useFactory;
         supplies := NewGoStyleExceptionFilter; inject := [ERROR_LOGGER] |} ] in
  let providers :=
    if useResultInterceptor
    then (providers ++ [ {| provide := APP_INTERCEPTOR; via := useClass;
                            supplies := ResultInterceptor; inject := [] |} ])%list
    else providers in
  let providers :=
    if useErrorLoggingInterceptor
    then (providers ++ [ {| provide := APP_INTERCEPTOR; via := useClass;
                            supplies := ErrorLoggingInterceptor; inject := [] |} ])%list
    else providers in
  providers.

(** [forRootAsync({ useFactory, inject })]: the [providers]; the
    options are what the caller's factory will return, later. *)
Definition forRootAsync (inject : option (list token)) : list Provider :=
  [ {| provide := GO_ERRORS_OPTIONS; via := useFactory;
       supplies := TheOptions;
       inject := match inject with Some tokens => tokens | None => [] end |};
    {| provide := ERROR_LOGGER; via := useFactory;
       supplies := TheLogger; inject := [GO_ERRORS_OPTIONS] |};
    {| provide := ErrorLogger; via := useFactory;
       supplies := TheLogger; inject := [ERROR_LOGGER] |};
    {| provide := APP_FILTER; via := useFactory;
       supplies := NewGoStyleExceptionFilter; inject := [ERROR_LOGGER] |} ].

End GoErrorsModule.

(* ===================================================================== *)
(** ** Inputs used by the examples *)
(* ===================================================================== *)

Module Examples.

Definition iso (_ : Z) : string := "2025-10-31T10:00:00.000Z".

(** A production process and a development one. *)
Definition production : Runtime :=
  {| clock := 1761904800000;
     toISOString := iso;
     NODE_ENV := VStr "production";
     stackTrace := "Error: at UserService.findOne (user.service.ts:12)" |}.

Definition development : Runtime :=
  {| clock := 1761904800000;
     toISOString := iso;
     NODE_ENV := VUndefined;
     stackTrace := "Error: at UserService.findOne (user.service.ts:12)" |}.

(** A pino instance that writes every record, and one whose stream is
    broken and raises on every call. *)
Definition quiet : Logger.Pino := fun _ _ _ => None.

Definition broken : Logger.Pino := fun _ _ _ => Some (VStr "EPIPE").

Definition request : ExceptionFilter.Request :=
  {| ExceptionFilter.url := "/users/999"; ExceptionFilter.method := "GET" |}.

Definition notFound : obj :=
  Errors.NotFoundError production "User not found"
    (literal [("metadata", literal [("userId", VStr "999")])]) VUndefined.

Definition internal : obj :=
  Errors.InternalError production "connect ECONNREFUSED db-primary:5432"
    VUndefined VUndefined.

Definition boom : obj := Errors.Error production "boom".

(** An [HttpException] whose [getResponse()] is [null]. *)
Definition nullResponse : obj :=
  Obj HttpExceptionC
    [ ("message", VStr "Http Exception");
      ("stack", VStr (stackTrace production));
      ("response", VNull);
      ("status", VNum 400);
      ("name", VStr "HttpException") ].

End Examples.

(* ===================================================================== *)
(** ** Measures *)
(* ===================================================================== *)

(** Number of constructors of a value, for the fact that an array is
    never one of its own elements. *)
Fixpoint size (v : value) : nat :=
  match v with
  | VArr items => S (list_sum (List.map size items))
  | VObj o =>
      match o with
      | Obj _ ps => S (list_sum (List.map (fun kv => size (snd kv)) ps))
      end
  | _ => 1
  end.

(* ===================================================================== *)
(** ** Predicates used in the statements *)
(* ===================================================================== *)

(** A constructor of the taxonomy pins [code], [statusCode] and the
    operational flag: whatever message, context and cause it is given,
    the error it builds is an [AppError] of class [self] that carries
    them, next to the time of construction. *)
Definition pins (ctor : Runtime -> string -> value -> value -> obj)
    (self : class) (code : string) (statusCode : Z) (isOperational : bool)
    : Prop :=
  forall (rt : Runtime) (message : string) (context originalError : value),
    let e := ctor rt message context originalError in
    member (get "context" e) "code" = VStr code /\
    member (get "context" e) "statusCode" = VNum statusCode /\
    member (get "context" e) "timestamp" = VDate (clock rt) /\
    get "isOperational" e = VBool isOperational /\
    get "message" e = VStr message /\
    cls e = self /\
    instanceof e AppErrorC = true.

(** The exception is an [HttpException] whose [getResponse()] is
    [null]. *)
Definition null_response (exception : obj) : bool :=
  instanceof exception HttpExceptionC
  && is_null (ExceptionFilter.getResponse exception).

(** The severity and the label that [logError] picks for an error. *)
Definition severity (error : obj) : Level * string :=
  if is_false (get "isOperational" error)
  then (LFatal, "Programming Error")
  else (LError, "Operational Error").

(** A constructor of the taxonomy keeps what the caller's context
    holds under every key other than [code], [statusCode] and
    [timestamp]. *)
Definition keeps_context (ctor : Runtime -> string -> value -> value -> obj)
    : Prop :=
  forall (rt : Runtime) (message : string) (entries : list (string * value))
         (originalError : value) (k : string),
    k <> "code" -> k <> "statusCode" -> k <> "timestamp" ->
    member (get "context" (ctor rt message (literal entries) originalError)) k
    = member (literal entries) k.


(** An error of a constructor of the taxonomy, returned by a handler as
    [Err(e)], is thrown by the outbound adapter, and every body the
    inbound adapter sends for it carries the constructor's status and
    code and the message the error was built with. *)
Definition renders (ctor : Runtime -> string -> value -> value -> obj)
    (code : string) (statusCode : Z) : Prop :=
  forall (rt rt' rt'' : Runtime) (logger : Logger.Pino)
         (request : ExceptionFilter.Request)
         (message : string) (context originalError : value) (body : value),
    let e := ctor rt message context originalError in
    ResultInterceptor.intercept rt'
      (Normal (Types.to_array (Core.Err (VObj e)))) = Throw (VObj e) /\
    (In body (sent (ExceptionFilter.catch rt'' logger e request)) ->
     In (StatusSet (VNum statusCode))
        (trace (ExceptionFilter.catch rt'' logger e request)) /\
     member (member body "error") "statusCode" = VNum statusCode /\
     member (member body "error") "code" = VStr code /\
     member (member body "error") "message" = VStr message).

(** A framework exception as its constructor leaves it: it holds the
    response and the status, its [message] is the response when that
    is a string, else the [message] of the response when that is a
    string, else the class name in words, and its [name] is the class
    name. *)
Definition HttpException (rt : Runtime) (response : value) (status : Z) : obj :=
  Obj HttpExceptionC
    [ ("message",
        VStr (match response with
              | VStr s => s
              | _ => match member response "message" with
                     | VStr m => m
                     | _ => "Http Exception"
                     end
              end));
      ("stack", VStr (stackTrace rt));
      ("response", response);
      ("status", VNum status);
      ("name", VStr "HttpException") ].

(* ===================================================================== *)
(** ** Property lists: reading after writing *)
(* ===================================================================== *)

Section PropertyLists.

Variables (k : string) (v : value).

Lemma lookup_set_same (ps : list (string * value)) :
  lookup k (set_prop k v ps) = Some v.
Proof.
  induction ps as [| [k' v'] ps IH]; simpl.
  - now rewrite String.eqb_refl.
  - destruct (String.eqb k' k) eqn:E; simpl.
    + now rewrite String.eqb_refl.
    + now rewrite E.
Qed.

Lemma lookup_set_other (k0 : string) (ps : list (string * value)) :
  k0 <> k -> lookup k0 (set_prop k v ps) = lookup k0 ps.
Proof.
  intros Hne.
  induction ps as [| [k' v'] ps IH]; simpl.
  - destruct (String.eqb_spec k k0); [congruence | reflexivity].
  - destruct (String.eqb_spec k' k) as [-> | Hk]; simpl.
    + destruct (String.eqb_spec k k0); [congruence | reflexivity].
    + destruct (String.eqb k' k0); [reflexivity | exact IH].
Qed.

End PropertyLists.

(** Reading after a run of assignments that ends with one to [k']. *)
Lemma lookup_assign_snoc (k k' : string) (v : value)
    (entries ps : list (string * value)) :
  lookup k (assign ps (entries ++ [(k', v)])) =
  if String.eqb k' k then Some v else lookup k (assign ps entries).
Proof.
  unfold assign. rewrite fold_left_app. simpl.
  destruct (String.eqb_spec k' k) as [-> | Hne].
  - apply lookup_set_same.
  - apply lookup_set_other. congruence.
Qed.

Lemma lookup_In_keys (k : string) (ps : list (string * value)) :
  lookup k ps = None -> ~ In k (List.map fst ps).
Proof.
  induction ps as [| [k' v'] ps IH]; simpl; intros H.
  - tauto.
  - destruct (String.eqb_spec k' k); [discriminate |].
    intros [Heq | Hin]; [congruence | now apply IH].
Qed.

Lemma set_prop_fresh (k : string) (v : value) (ps : list (string * value)) :
  ~ In k (List.map fst ps) -> set_prop k v ps = (ps ++ [(k, v)])%list.
Proof.
  induction ps as [| [k' v'] ps IH]; simpl; intros H.
  - reflexivity.
  - destruct (String.eqb_spec k' k) as [-> | Hne]; [tauto |].
    rewrite IH; tauto.
Qed.

Lemma set_prop_keys (k : string) (v : value) (ps : list (string * value)) :
  NoDup (List.map fst ps) -> NoDup (List.map fst (set_prop k v ps)).
Proof.
  induction ps as [| [k' v'] ps IH]; simpl; intros H.
  - constructor; [tauto | constructor].
  - inversion H as [| ? ? Hnotin Hrest]; subst.
    destruct (String.eqb_spec k' k) as [-> | Hne]; simpl.
    + now constructor.
    + constructor; [| now apply IH].
      intros Hin. apply Hnotin.
      destruct (lookup k ps) eqn:L.
      * clear IH H Hnotin Hrest.
        induction ps as [| [k1 v1] ps IHps]; simpl in *; [discriminate |].
        destruct (String.eqb_spec k1 k) as [-> | Hk]; simpl in *.
        -- exact Hin.
        -- destruct Hin as [-> | Hin]; [now left | right; now apply IHps].
      * rewrite set_prop_fresh in Hin by now apply lookup_In_keys.
        rewrite List.map_app, in_app_iff in Hin. simpl in Hin.
        destruct Hin as [Hin | [Heq | []]]; [assumption | congruence].
Qed.

(** An object never holds a key twice. *)
Lemma assign_keys (entries ps : list (string * value)) :
  NoDup (List.map fst ps) -> NoDup (List.map fst (assign ps entries)).
Proof.
  unfold assign. revert ps.
  induction entries as [| [k v] entries IH]; intros ps H; simpl.
  - exact H.
  - apply IH. now apply set_prop_keys.
Qed.

(** Copying the entries of an object into a fresh one gives them back. *)
Lemma assign_copy (entries ps : list (string * value)) :
  NoDup (List.map fst (ps ++ entries)) -> assign ps entries = (ps ++ entries)%list.
Proof.
  unfold assign. revert ps.
  induction entries as [| [k v] entries IH]; intros ps H; simpl.
  - now rewrite app_nil_r.
  - assert (Hfresh : ~ In k (List.map fst ps)).
    { rewrite List.map_app in H. simpl in H.
      apply NoDup_remove_2 in H. rewrite in_app_iff in H. tauto. }
    rewrite set_prop_fresh by exact Hfresh.
    rewrite IH; rewrite <- app_assoc; [reflexivity | exact H].
Qed.

(** Every property of a plain object is enumerable. *)
Lemma own_entries_plain (ps : list (string * value)) :
  own_entries (VObj (Obj ObjectC ps)) = ps.
Proof.
  simpl. induction ps as [| [k v] ps IH]; simpl; [reflexivity |].
  now rewrite IH.
Qed.

Lemma spread_literal (entries : list (string * value)) :
  assign [] (own_entries (literal entries)) = assign [] entries.
Proof.
  unfold literal. rewrite own_entries_plain.
  apply (assign_copy (assign [] entries) []). simpl.
  apply assign_keys. constructor.
Qed.

Lemma member_literal_snoc (k k' : string) (v : value)
    (entries : list (string * value)) :
  member (literal (entries ++ [(k', v)])) k =
  if String.eqb k' k then v else member (literal entries) k.
Proof.
  unfold literal, member, get. simpl.
  rewrite lookup_assign_snoc.
  now destruct (String.eqb k' k).
Qed.

(** An array is larger than each of its elements. *)
Lemma array_not_its_element (a b : value) : a <> VArr [a; b].
Proof.
  intros H. apply (f_equal size) in H. simpl in H. lia.
Qed.

(* ===================================================================== *)
(** ** The tuple predicates and [combine] *)
(* ===================================================================== *)

Section Tuples.
Import Types Core.

Lemma hasError_Ok (x : value) : hasError (Ok x) = false.
Proof. reflexivity. Qed.

Lemma isSuccess_Err (e : value) : isSuccess (Err e) = false.
Proof. reflexivity. Qed.

Lemma is_null_false (v : value) : v <> VNull -> is_null v = false.
Proof. destruct v; simpl; congruence. Qed.

Lemma is_null_true (v : value) : is_null v = true -> v = VNull.
Proof. destruct v; simpl; congruence. Qed.

(** The loop with an accumulator, against a scan for the first tuple
    that carries an error. *)
Lemma combine_loop_scan (results : list Result) (data : list value) :
  combine_loop data results =
  match find hasError results with
  | Some r => Err (snd r)
  | None => Ok (VArr (data ++ List.map fst results))
  end.
Proof.
  revert data.
  induction results as [| [x e] results IH]; intros data; simpl.
  - now rewrite app_nil_r.
  - unfold hasError at 1. simpl.
    destruct (is_null e); simpl.
    + rewrite IH. now rewrite <- app_assoc.
    + reflexivity.
Qed.

Lemma find_hasError_none (results : list Result) :
  find hasError results = None <->
  Forall (fun r => hasError r = false) results.
Proof.
  induction results as [| r results IH]; simpl.
  - split; [constructor | reflexivity].
  - destruct (hasError r) eqn:E.
    + split; [discriminate |].
      intros H. inversion H; congruence.
    + rewrite IH. split.
      * now constructor.
      * intros H. now inversion H.
Qed.

Lemma find_hasError_first (pre post : list Result) (r : Result) :
  Forall (fun r => hasError r = false) pre ->
  hasError r = true ->
  find hasError (pre ++ r :: post) = Some r.
Proof.
  intros Hpre Hr.
  induction Hpre as [| p pre Hp _ IH]; simpl.
  - now rewrite Hr.
  - now rewrite Hp.
Qed.

Lemma no_error_in_Oks (xs : list value) :
  Forall (fun r => hasError r = false) (List.map Ok xs).
Proof.
  induction xs; simpl; constructor; auto.
Qed.

(** [unwrap] gives the payload back and throws exactly the error. *)
Lemma unwrap_Ok (x : value) : unwrap (Ok x) = Normal x.
Proof. reflexivity. Qed.

Lemma unwrap_Err (e : value) : e <> VNull -> unwrap (Err e) = Throw e.
Proof. intros He. unfold unwrap, Err. now rewrite (is_null_false He). Qed.

(** [chain] and [map] do not call [fn] on a failure. *)
Lemma chain_Err (e : value) (fn : value -> Result) :
  e <> VNull -> chain (Err e) fn = Err e.
Proof. intros He. unfold chain, Err. now rewrite (is_null_false He). Qed.

Lemma map_Err (e : value) (fn : value -> value) :
  e <> VNull -> map (Err e) fn = Err e.
Proof. intros He. unfold map, Err. now rewrite (is_null_false He). Qed.

Lemma chain_Ok (x : value) (fn : value -> Result) : chain (Ok x) fn = fn x.
Proof. reflexivity. Qed.

End Tuples.

(* ===================================================================== *)
(** ** Properties of the tuple predicates and of [combine] *)
(* ===================================================================== *)

Section TupleProperties.
Import Types Core.

(** C1, as stated, fails at the success payload [null]: [Ok(null)] is
    the tuple [[null, null]], for which [isSuccess] answers [false]
    (it requires a non-null first slot) and [hasError] answers [false]
    as well, so the tuple is on neither side.  It is also the tuple
    that [Err(null)] builds: in a pair of nullable slots the two
    constructors meet there. *)
Lemma isSuccess_Ok_null_is_false :
  isSuccess (Ok VNull) = false /\ hasError (Ok VNull) = false /\
  Ok VNull = Err VNull.
Proof. repeat split. Qed.

(** C1, amended.  For every value [x] other than [null],
    [isSuccess(Ok(x))] holds, and [hasError(Ok(x))] fails for every [x];
    for every error [e] other than [null], [hasError(Err(e))] holds, and
    [isSuccess(Err(e))] fails for every [e].  No tuple satisfies both
    predicates, and every tuple other than [[null, null]] satisfies one
    of them. *)
Theorem outcome_predicates_partition (x e : value) :
  x <> VNull ->
  e <> VNull ->
  (isSuccess (Ok x) = true /\ hasError (Ok x) = false) /\
  (hasError (Err e) = true /\ isSuccess (Err e) = false) /\
  (forall y, hasError (Ok y) = false) /\
  (forall y, isSuccess (Err y) = false) /\
  (forall r, isSuccess r && hasError r = false) /\
  (forall r, r <> (VNull, VNull) -> isSuccess r || hasError r = true).
Proof.
  intros Hx He.
  unfold isSuccess, hasError, Ok, Err; simpl.
  rewrite (is_null_false Hx), (is_null_false He); simpl.
  repeat split.
  - intros [a b]; simpl. now destruct (is_null a), (is_null b).
  - intros [a b] Hr; simpl.
    destruct (is_null a) eqn:Ea, (is_null b) eqn:Eb; simpl; try reflexivity.
    apply is_null_true in Ea, Eb. congruence.
Qed.

Lemma outcome_predicates_partition_witness :
  (isSuccess (Ok (VNum 1)) = true /\ hasError (Ok (VNum 1)) = false) /\
  (hasError (Err (VStr "e")) = true /\ isSuccess (Err (VStr "e")) = false).
Proof.
  pose proof (@outcome_predicates_partition (VNum 1) (VStr "e")
                ltac:(discriminate) ltac:(discriminate)) as H.
  split; [exact (proj1 H) | exact (proj1 (proj2 H))].
Defined.

(** C6.  [combine] scans left to right: it answers with the error of
    the first tuple that carries one and otherwise with [Ok] of the
    first slots in input order.  Hence it is a success exactly when no
    tuple carries an error, [combine([])] is [Ok([])], [combine] of
    successes is [Ok] of their values, and a failure preceded by
    successes only is returned whatever follows it. *)
Theorem combine_first_failure_wins (results : list Result) :
  combine results =
    match find hasError results with
    | Some r => Err (snd r)
    | None => Ok (VArr (List.map fst results))
    end /\
  (isSuccess (combine results) = true <->
   Forall (fun r => hasError r = false) results) /\
  (hasError (combine results) = true <->
   Exists (fun r => hasError r = true) results) /\
  combine [] = Ok (VArr []) /\
  (forall xs, combine (List.map Ok xs) = Ok (VArr xs)) /\
  (forall xs e post,
      e <> VNull ->
      combine (List.map Ok xs ++ Err e :: post) = Err e).
Proof.
  assert (Hscan : forall rs, combine rs =
            match find hasError rs with
            | Some r => Err (snd r)
            | None => Ok (VArr (List.map fst rs))
            end).
  { intros rs. unfold combine. now rewrite combine_loop_scan. }
  split; [apply Hscan |].
  split; [| split; [| split; [reflexivity | split]]].
  - rewrite Hscan, <- find_hasError_none.
    destruct (find hasError results) as [r |] eqn:F.
    + split; [| discriminate]. rewrite isSuccess_Err. discriminate.
    + split; reflexivity.
  - rewrite Hscan.
    destruct (find hasError results) as [r |] eqn:F.
    + apply find_some in F. destruct F as [Hin Hr].
      split; [intros _ | intros _].
      * apply Exists_exists. now exists r.
      * exact Hr.
    + split; [discriminate |].
      intros Hex. apply find_hasError_none in F.
      apply Exists_exists in Hex. destruct Hex as [r [Hin Hr]].
      rewrite Forall_forall in F. specialize (F r Hin). congruence.
  - intros xs. rewrite Hscan.
    pose proof (no_error_in_Oks xs) as Hok.
    apply find_hasError_none in Hok. rewrite Hok.
    rewrite List.map_map. simpl. now rewrite List.map_id.
  - intros xs e post He. rewrite Hscan.
    rewrite (@find_hasError_first (List.map Ok xs) post (Err e)).
    + reflexivity.
    + apply no_error_in_Oks.
    + unfold hasError, Err. simpl. now rewrite (is_null_false He).
Qed.

Lemma combine_first_failure_wins_witness :
  combine [Ok (VNum 1); Err (VObj Examples.notFound); Ok (VNum 2)]
  = Err (VObj Examples.notFound).
Proof.
  exact (proj2 (proj2 (proj2 (proj2 (proj2
           (combine_first_failure_wins []))))) [VNum 1]
           (VObj Examples.notFound) [Ok (VNum 2)] ltac:(discriminate)).
Defined.

End TupleProperties.

(* ===================================================================== *)
(** ** Properties of the outbound adapter *)
(* ===================================================================== *)

Section OutboundProperties.
Import Types Core ResultInterceptor.

Variable rt : Runtime.

(** Any array of two elements takes the tuple branch of [project]. *)
Lemma project_pair (a b : value) :
  project rt (VArr [a; b]) =
  if is_null b then Normal (successResponse rt a) else Throw b.
Proof.
  unfold project. simpl. now destruct (is_null b).
Qed.

Lemma project_envelope (o : obj) :
  has_prop "success" o = true -> project rt (VObj o) = Normal (VObj o).
Proof.
  intros H. unfold project. simpl. now rewrite H.
Qed.

Lemma successResponse_fields (data : value) :
  successResponse rt data =
  VObj (Obj ObjectC [ ("success", VBool true);
                      ("data", data);
                      ("timestamp", VStr (toISOString rt (clock rt))) ]).
Proof. reflexivity. Qed.

(** C5.  A handler that returns [Err(e)], [e] not [null], has exactly
    [e] thrown by the outbound adapter; one that returns [Ok(x)] has
    [{success: true, data: x, timestamp}] produced, the timestamp being
    the clock reading in ISO form; one that returns an object that
    already has a [success] key has that object passed through
    unchanged. *)
Theorem intercept_outcome (x e : value) (envelope : obj) :
  e <> VNull ->
  has_prop "success" envelope = true ->
  intercept rt (Normal (to_array (Err e))) = Throw e /\
  intercept rt (Normal (to_array (Ok x))) =
    Normal (VObj (Obj ObjectC
                    [ ("success", VBool true);
                      ("data", x);
                      ("timestamp", VStr (toISOString rt (clock rt))) ])) /\
  intercept rt (Normal (VObj envelope)) = Normal (VObj envelope).
Proof.
  intros He Henv.
  unfold intercept, to_array, Ok, Err. simpl fst. simpl snd.
  rewrite !project_pair, (project_envelope envelope Henv).
  rewrite (is_null_false He). simpl.
  repeat split.
Qed.

(** C9.  Whatever the two elements of a two-element array are, the
    outbound adapter throws the second one when it is not [null] and
    otherwise produces [{success: true, data, timestamp}] with the
    first one alone as [data]; the outcome is never the envelope whose
    [data] is the array itself. *)
Theorem intercept_any_pair_is_a_tuple (a b : value) :
  intercept rt (Normal (VArr [a; b])) =
    (if is_null b
     then Normal (VObj (Obj ObjectC
                          [ ("success", VBool true);
                            ("data", a);
                            ("timestamp", VStr (toISOString rt (clock rt))) ]))
     else Throw b) /\
  intercept rt (Normal (VArr [a; b])) <>
    Normal (VObj (Obj ObjectC
                    [ ("success", VBool true);
                      ("data", VArr [a; b]);
                      ("timestamp", VStr (toISOString rt (clock rt))) ])).
Proof.
  unfold intercept. rewrite project_pair.
  split.
  - now destruct (is_null b).
  - destruct (is_null b); simpl; [| discriminate].
    rewrite successResponse_fields.
    intros H. injection H as H.
    now apply array_not_its_element in H.
Qed.

End OutboundProperties.

Lemma intercept_outcome_witness :
  ResultInterceptor.intercept Examples.production
    (Normal (Types.to_array (Core.Err (VObj Examples.notFound))))
  = Throw (VObj Examples.notFound).
Proof.
  exact (proj1 (@intercept_outcome Examples.production (VNum 1)
                  (VObj Examples.notFound)
                  (Obj ObjectC [("success", VBool true); ("data", VNum 1)])
                  ltac:(discriminate) eq_refl)).
Defined.


(* ===================================================================== *)
(** ** Properties of the error taxonomy *)
(* ===================================================================== *)

Section TaxonomyProperties.
Import Errors Core.

Lemma literal_spread (entries : list (string * value)) :
  literal (own_entries (literal entries)) = literal entries.
Proof.
  unfold literal at 1 3. now rewrite spread_literal.
Qed.

(** The context a subclass hands to [AppError], after [AppError] has
    copied it and stamped the time. *)
Lemma stamped_context (context : value) (code status stamp : value) :
  let c := literal (own_entries
                      (literal (own_entries context ++
                                [("code", code); ("statusCode", status)]))
                    ++ [("timestamp", stamp)]) in
  member c "code" = code /\
  member c "statusCode" = status /\
  member c "timestamp" = stamp.
Proof.
  assert (Hsplit : (own_entries context ++ [("code", code); ("statusCode", status)]
                    = (own_entries context ++ [("code", code)])
                        ++ [("statusCode", status)])%list)
    by now rewrite <- app_assoc.
  cbv zeta. rewrite Hsplit.
  rewrite !member_literal_snoc, literal_spread, !member_literal_snoc.
  repeat split.
Qed.

Lemma AppError_from_pins (self : class) (code : string) (statusCode : Z)
    (isOperational : bool) (rt : Runtime) (message : string)
    (context originalError : value) :
  inherits 3 self AppErrorC = true ->
  let e := AppError_from self rt message
             (literal (own_entries context ++
                       [("code", VStr code); ("statusCode", VNum statusCode)]))
             originalError isOperational in
  member (get "context" e) "code" = VStr code /\
  member (get "context" e) "statusCode" = VNum statusCode /\
  member (get "context" e) "timestamp" = VDate (clock rt) /\
  get "isOperational" e = VBool isOperational /\
  get "message" e = VStr message /\
  cls e = self /\
  instanceof e AppErrorC = true.
Proof.
  intros Hself e.
  destruct (stamped_context context (VStr code) (VNum statusCode)
              (VDate (clock rt))) as (Hc & Hs & Ht).
  repeat split; assumption.
Qed.

(** C10.  Each of the eight constructors of the taxonomy, for every
    message, caller context and cause, builds an error whose
    [context.code] and [context.statusCode] are its own pair, whatever
    the caller's context held under those keys, whose
    [context.timestamp] is the time of construction, and whose
    [isOperational] is [true] except for [InternalError], where it is
    [false]. *)
Theorem taxonomy_pins_code_and_status :
  pins ValidationError ValidationErrorC "VALIDATION_ERROR" 400 true /\
  pins NotFoundError NotFoundErrorC "NOT_FOUND" 404 true /\
  pins UnauthorizedError UnauthorizedErrorC "UNAUTHORIZED" 401 true /\
  pins ForbiddenError ForbiddenErrorC "FORBIDDEN" 403 true /\
  pins ConflictError ConflictErrorC "CONFLICT" 409 true /\
  pins InternalError InternalErrorC "INTERNAL_ERROR" 500 false /\
  pins ExternalServiceError ExternalServiceErrorC "EXTERNAL_SERVICE_ERROR" 502 true /\
  pins TimeoutError TimeoutErrorC "TIMEOUT" 408 true.
Proof.
  repeat match goal with |- _ /\ _ => split end;
    intros rt message context originalError;
    apply AppError_from_pins; reflexivity.
Qed.

(** [AppError] always gives the object a [context] property. *)
Lemma AppError_has_context (rt : Runtime) (message : string)
    (context originalError : value) (isOperational : bool) :
  has_prop "context" (AppError rt message context originalError isOperational)
  = true.
Proof. reflexivity. Qed.

(** C8.  [enhanceError] returns an error that has a [context] property
    as it is; an error without one is promoted to an [AppError] that
    keeps its message, records it as [originalError] and is
    operational; and enhancing an enhanced error, with whatever second
    context and at whatever later time, changes nothing. *)
Theorem enhanceError_idempotent (rt rt' : Runtime) (error : obj)
    (context context' : value) :
  (has_prop "context" error = true ->
   enhanceError rt error context = error) /\
  (has_prop "context" error = false ->
   enhanceError rt error context
     = AppError rt (message_of error) context (VObj error) true /\
   instanceof (enhanceError rt error context) AppErrorC = true /\
   get "message" (enhanceError rt error context) = VStr (message_of error) /\
   get "originalError" (enhanceError rt error context) = VObj error /\
   has_prop "context" (enhanceError rt error context) = true) /\
  enhanceError rt' (enhanceError rt error context) context'
    = enhanceError rt error context.
Proof.
  unfold enhanceError.
  destruct (has_prop "context" error) eqn:H.
  - split; [reflexivity |]. split; [discriminate |]. now rewrite H.
  - split; [discriminate |]. split.
    + intros _. repeat split.
    + now rewrite AppError_has_context.
Qed.

End TaxonomyProperties.

Lemma enhanceError_idempotent_witness :
  Core.enhanceError Examples.development Examples.notFound VUndefined
    = Examples.notFound /\
  Core.enhanceError Examples.development Examples.boom VUndefined
    = Errors.AppError Examples.development "boom" VUndefined
        (VObj Examples.boom) true.
Proof.
  split.
  - exact (proj1 (enhanceError_idempotent Examples.development
                    Examples.development Examples.notFound
                    VUndefined VUndefined) eq_refl).
  - exact (proj1 (proj1 (proj2 (enhanceError_idempotent Examples.development
                    Examples.development Examples.boom
                    VUndefined VUndefined)) eq_refl)).
Defined.


(* ===================================================================== *)
(** ** Properties of the logger and of the inbound adapter *)
(* ===================================================================== *)

Section InboundProperties.
Import Errors Core Logger ExceptionFilter.

(** [logError] makes one call of the pino instance, at the severity
    and with the label of [severity]; it writes the record if that call
    returns and raises what that call raises. *)
Lemma logError_run (logger : Pino) (error : obj) (additionalContext : value) :
  logError logger error additionalContext =
  match logger (fst (severity error)) (logObject_of error additionalContext)
               (snd (severity error)) with
  | None => ([Logged (fst (severity error))
                     (logObject_of error additionalContext)
                     (snd (severity error))], Normal tt)
  | Some thrown => ([], Throw thrown)
  end.
Proof.
  unfold logError, severity, pino_call.
  destruct (is_false (get "isOperational" error)); simpl;
    match goal with |- context [logger ?l ?o ?m] => destruct (logger l o m) end;
    reflexivity.
Qed.

(** No class is both an [AppError] and an [HttpException]. *)
Lemma AppError_not_HttpException (exception : obj) :
  instanceof exception AppErrorC = true ->
  instanceof exception HttpExceptionC = false.
Proof.
  unfold instanceof. now destruct (cls exception).
Qed.

(** The three ways a run of [catch] can go.  The reads on a [null]
    response raised a TypeError: nothing was written or sent.  Or the
    logging call raised: nothing was written or sent and the raise
    leaves [catch].  Or it returned: one record was written, then the
    status was set and one body was sent, built from the status,
    message, code and metadata that the classification of the
    exception yields. *)
Lemma catch_cases (rt : Runtime) (logger : Pino) (exception : obj)
    (request : Request) :
  (null_response exception = true /\
   catch rt logger exception request
     = ([], Throw (VObj (TypeError rt VNull "message")))) \/
  (null_response exception = false /\
   exists extra thrown,
      logger (fst (severity exception)) (logObject_of exception extra)
             (snd (severity exception)) = Some thrown /\
      catch rt logger exception request = ([], Throw thrown)) \/
  (null_response exception = false /\
   exists extra status message code context,
      logger (fst (severity exception)) (logObject_of exception extra)
             (snd (severity exception)) = None /\
      catch rt logger exception request =
        ([ Logged (fst (severity exception)) (logObject_of exception extra)
                  (snd (severity exception));
           StatusSet status;
           JsonSent (errorResponse rt exception request
                       status message code context) ],
         Normal tt) /\
      (instanceof exception AppErrorC = true ->
         status = or_else (member (get "context" exception) "statusCode")
                          (VNum 500) /\
         message = get "message" exception /\
         code = or_else (member (get "context" exception) "code")
                        (VStr "INTERNAL_ERROR") /\
         context = or_else (member (get "context" exception) "metadata")
                           (literal []) /\
         member extra "isUnexpected" = VUndefined) /\
      (instanceof exception AppErrorC = false ->
         member extra "isUnexpected" = VBool true /\
         context = literal [] /\
         (instanceof exception HttpExceptionC = false ->
            status = VNum 500 /\
            message = VStr "Internal server error" /\
            code = VStr "INTERNAL_ERROR"))).
Proof.
  unfold catch, null_response.
  destruct (instanceof exception AppErrorC) eqn:HA.
  - rewrite (AppError_not_HttpException exception HA).
    cbn -[logError errorResponse]. rewrite logError_run.
    match goal with |- context [logObject_of exception ?x] => set (extra := x) end.
    destruct (logger (fst (severity exception)) (logObject_of exception extra)
                     (snd (severity exception))) as [thrown |] eqn:L.
    + right. left. split; [reflexivity |].
      exists extra, thrown. split; [exact L | reflexivity].
    + right. right. split; [reflexivity |].
      do 5 eexists. split; [exact L |]. split; [reflexivity |].
      split; [| discriminate]. intros _. repeat split.
  - destruct (instanceof exception HttpExceptionC) eqn:HH;
      [ destruct (getResponse exception) as [| | b | n | s | d | items | o] |];
      cbn -[logError errorResponse];
      try (left; split; reflexivity);
      rewrite logError_run;
      match goal with |- context [logObject_of exception ?x] => set (extra := x) end;
      (destruct (logger (fst (severity exception)) (logObject_of exception extra)
                        (snd (severity exception))) as [thrown |] eqn:L;
       [ right; left; split; [reflexivity |];
         exists extra, thrown; split; [exact L | reflexivity]
       | right; right; split; [reflexivity |];
         do 5 eexists; split; [exact L |]; split; [reflexivity |];
         split; [discriminate |]; intros _;
         split; [reflexivity |]; split; [reflexivity |];
         first [ discriminate | intros _; repeat split ] ]).
Qed.

(** What a sent body is, in terms of [catch_cases]. *)
Lemma sent_body (rt : Runtime) (logger : Pino) (exception : obj)
    (request : Request) (body : value) :
  In body (sent (catch rt logger exception request)) ->
  exists extra status message code context,
    catch rt logger exception request =
      ([ Logged (fst (severity exception)) (logObject_of exception extra)
                (snd (severity exception));
         StatusSet status;
         JsonSent body ], Normal tt) /\
    body = errorResponse rt exception request status message code context /\
    (instanceof exception AppErrorC = true ->
       status = or_else (member (get "context" exception) "statusCode")
                        (VNum 500) /\
       message = get "message" exception /\
       code = or_else (member (get "context" exception) "code")
                      (VStr "INTERNAL_ERROR") /\
       context = or_else (member (get "context" exception) "metadata")
                         (literal [])) /\
    (instanceof exception AppErrorC = false ->
     instanceof exception HttpExceptionC = false ->
       status = VNum 500 /\
       message = VStr "Internal server error" /\
       code = VStr "INTERNAL_ERROR" /\
       context = literal []).
Proof.
  intros Hin.
  destruct (catch_cases rt logger exception request)
    as [(_ & Hrun)
       | [(_ & extra & thrown & _ & Hrun)
         | (_ & extra & status & message & code & context
              & _ & Hrun & HA & HN)]].
  - rewrite Hrun in Hin. contradiction.
  - rewrite Hrun in Hin. contradiction.
  - rewrite Hrun in Hin. simpl in Hin.
    destruct Hin as [<- | []].
    exists extra, status, message, code, context.
    split; [exact Hrun |]. split; [reflexivity |]. split.
    + intros H. destruct (HA H) as (? & ? & ? & ? & _). auto.
    + intros H H'. destruct (HN H) as (_ & ? & Hrest).
      destruct (Hrest H') as (? & ? & ?). auto.
Qed.

(** The fields of the [error] object of a body. *)
Lemma errorResponse_error (rt : Runtime) (exception : obj) (request : Request)
    (status message code context : value) :
  let error := member (errorResponse rt exception request
                         status message code context) "error" in
  member error "code" = code /\
  member error "message" = message /\
  member error "statusCode" = status /\
  member error "path" = VStr (url request) /\
  member error "context" =
    (if Nat.ltb 0 (List.length (Object_keys context))
     then context else VUndefined) /\
  in_ "stack" error = not_production rt /\
  member error "stack" =
    (if not_production rt then get "stack" exception else VUndefined).
Proof.
  unfold errorResponse.
  destruct (Nat.ltb 0 (List.length (Object_keys context)));
    destruct (not_production rt); repeat split.
Qed.

(** C7.  In every body the inbound adapter sends, the [error] object
    has a [stack] property exactly when [process.env.NODE_ENV] is not
    ['production'], and then it is the exception's own [stack]. *)
Theorem stack_only_outside_production (rt : Runtime) (logger : Pino)
    (exception : obj) (request : Request) (body : value) :
  In body (sent (catch rt logger exception request)) ->
  (NODE_ENV rt = VStr "production" ->
     in_ "stack" (member body "error") = false) /\
  (NODE_ENV rt <> VStr "production" ->
     in_ "stack" (member body "error") = true /\
     member (member body "error") "stack" = get "stack" exception).
Proof.
  intros Hin.
  destruct (sent_body _ _ _ _ _ Hin)
    as (extra & status & message & code & context & _ & -> & _).
  destruct (errorResponse_error rt exception request status message code context)
    as (_ & _ & _ & _ & _ & Hin_stack & Hstack).
  rewrite Hin_stack, Hstack.
  unfold not_production, is_string_lit.
  split.
  - intros ->. reflexivity.
  - intros Hne. destruct (NODE_ENV rt); try (split; reflexivity).
    destruct (String.eqb_spec s "production") as [-> | _];
      [congruence | split; reflexivity].
Qed.

(** C3, as stated, fails in production on an [InternalError]: its
    [isOperational] is [false], the build is a production one, and the
    body that is sent carries the error's own message, not a generic
    one. *)
Lemma production_renders_internal_message :
  NODE_ENV Examples.production = VStr "production" /\
  get "isOperational" Examples.internal = VBool false /\
  List.map (fun body => member (member body "error") "message")
    (sent (catch Examples.production Examples.quiet Examples.internal
             Examples.request))
  = [VStr "connect ECONNREFUSED db-primary:5432"].
Proof. repeat split. Qed.

(** C3, amended.  In every build, production or not, an [AppError]
    that reaches the inbound adapter, operational or not, is rendered
    with its own message, with its [context.statusCode] (500 when that
    is falsy: absent or 0) as [statusCode] and as transport status,
    with its [context.code] ([INTERNAL_ERROR] when that is falsy:
    absent or empty) and with its metadata as [context] when the
    metadata has an enumerable key of its own, without [context]
    otherwise.  An error that is neither an [AppError] nor an
    [HttpException] is rendered, in every build, with the generic
    message, the code [INTERNAL_ERROR] and status 500. *)
Theorem app_error_rendered_verbatim (rt : Runtime) (logger : Pino)
    (exception : obj) (request : Request) (body : value) :
  In body (sent (catch rt logger exception request)) ->
  (instanceof exception AppErrorC = true ->
     let status := or_else (member (get "context" exception) "statusCode")
                           (VNum 500) in
     let metadata := or_else (member (get "context" exception) "metadata")
                             (literal []) in
     member (member body "error") "message" = get "message" exception /\
     member (member body "error") "statusCode" = status /\
     In (StatusSet status) (trace (catch rt logger exception request)) /\
     member (member body "error") "code" =
       or_else (member (get "context" exception) "code")
               (VStr "INTERNAL_ERROR") /\
     member (member body "error") "context" =
       (if Nat.ltb 0 (List.length (Object_keys metadata))
        then metadata else VUndefined)) /\
  (instanceof exception AppErrorC = false ->
   instanceof exception HttpExceptionC = false ->
     member (member body "error") "message" = VStr "Internal server error" /\
     member (member body "error") "statusCode" = VNum 500 /\
     In (StatusSet (VNum 500)) (trace (catch rt logger exception request)) /\
     member (member body "error") "code" = VStr "INTERNAL_ERROR" /\
     member (member body "error") "context" = VUndefined).
Proof.
  intros Hin.
  destruct (sent_body _ _ _ _ _ Hin)
    as (extra & status & message & code & context & Hrun & -> & HA & HN).
  destruct (errorResponse_error rt exception request status message code context)
    as (Hc & Hm & Hs & _ & Hx & _).
  rewrite Hc, Hm, Hs, Hx, Hrun.
  split.
  - intros H. destruct (HA H) as (-> & -> & -> & ->).
    cbv zeta. repeat split. simpl. auto.
  - intros H H'. destruct (HN H H') as (-> & -> & -> & ->).
    repeat split. simpl. auto.
Qed.

(** C4, as stated, fails when the pino stream is broken: the raise of
    the logging call leaves [catch], and neither a status nor a body
    has been sent. *)
Lemma logging_raise_leaves_catch :
  catch Examples.production Examples.broken Examples.notFound Examples.request
  = ([], Throw (VStr "EPIPE")).
Proof. reflexivity. Qed.

(** C4, amended.  For an [HttpException] whose response is [null],
    [catch] raises a TypeError while it classifies, before it logs or
    sends.  For every other exception: when the logging call returns,
    the inbound adapter sets the status and sends exactly one failure
    body, whose [success] is [false] and whose [error.statusCode] is
    the status set; when the logging call raises, [catch] sends
    nothing and the raise leaves it unchanged.  In every case a run
    that throws has sent and written nothing, and a run that returns
    has sent one body. *)
Theorem catch_sends_unless_logging_raises (rt : Runtime) (logger : Pino)
    (exception : obj) (request : Request) :
  (null_response exception = true ->
     catch rt logger exception request
       = ([], Throw (VObj (TypeError rt VNull "message")))) /\
  (null_response exception = false ->
     ((forall level logObject msg, logger level logObject msg = None) ->
        exists record status body,
          catch rt logger exception request =
            ([Logged (fst (fst record)) (snd (fst record)) (snd record);
              StatusSet status; JsonSent body], Normal tt) /\
          member body "success" = VBool false /\
          member (member body "error") "statusCode" = status) /\
     (forall thrown,
        (forall level logObject msg, logger level logObject msg = Some thrown) ->
        catch rt logger exception request = ([], Throw thrown)) /\
     (forall thrown,
        outcome (catch rt logger exception request) = Throw thrown ->
        exists level logObject msg, logger level logObject msg = Some thrown)) /\
  (outcome (catch rt logger exception request) = Normal tt ->
     exists body, sent (catch rt logger exception request) = [body]) /\
  (forall thrown,
     outcome (catch rt logger exception request) = Throw thrown ->
     trace (catch rt logger exception request) = []).
Proof.
  destruct (catch_cases rt logger exception request)
    as [(Hnull & Hrun)
       | [(Hnull & extra & thrown & Hlog & Hrun)
         | (Hnull & extra & status & message & code & context
              & Hlog & Hrun & _)]];
    rewrite Hrun, Hnull.
  - split; [reflexivity |]. split; [discriminate |].
    split; [discriminate |]. intros thrown _. reflexivity.
  - split; [discriminate |]. split; [| split; [discriminate |]].
    + intros _. split; [| split].
      * intros Hquiet. rewrite Hquiet in Hlog. discriminate.
      * intros thrown' Hraises. rewrite Hraises in Hlog. congruence.
      * intros thrown' H. simpl in H. injection H as <-. eauto.
    + intros thrown' _. reflexivity.
  - split; [discriminate |]. split; [| split; [| discriminate]].
    + intros _. split; [| split].
      * intros _.
        exists (fst (severity exception), logObject_of exception extra,
                snd (severity exception)), status.
        eexists. split; [reflexivity |]. split; [reflexivity |].
        now destruct (errorResponse_error rt exception request
                        status message code context) as (_ & _ & -> & _).
      * intros thrown Hraises. rewrite Hraises in Hlog. discriminate.
      * discriminate.
    + intros _. eexists. reflexivity.
Qed.

(** [get] of a key that is neither an own property nor one
    [Error.prototype] supplies. *)
Lemma get_absent_flag (o : obj) :
  has_prop "isOperational" o = false -> get "isOperational" o = VUndefined.
Proof.
  unfold has_prop, get, prototype_get.
  destruct (lookup "isOperational" (props o)); [discriminate |].
  intros _. now destruct (inherits 3 (cls o) ErrorC).
Qed.

(** C2, on the code.  An error without an [isOperational] property is
    not operational for [isOperationalError], yet every record the
    inbound adapter writes for it is at the [error] severity with the
    label of an operational failure, never at the [fatal] one. *)
Theorem untagged_error_logged_as_operational (rt : Runtime) (logger : Pino)
    (exception : obj) (request : Request) :
  has_prop "isOperational" exception = false ->
  isOperationalError (VObj exception) = false /\
  forall level logObject msg,
    In (level, logObject, msg) (logged (catch rt logger exception request)) ->
    level = LError /\ msg = "Operational Error".
Proof.
  intros Hflag. split.
  - unfold isOperationalError. simpl. now rewrite Hflag.
  - intros level logObject msg Hin.
    assert (Hsev : severity exception = (LError, "Operational Error")).
    { unfold severity. now rewrite (get_absent_flag _ Hflag). }
    destruct (catch_cases rt logger exception request)
      as [(_ & Hrun)
         | [(_ & extra & thrown & _ & Hrun)
           | (_ & extra & status & message & code & context & _ & Hrun & _)]];
      rewrite Hrun in Hin; simpl in Hin.
    + contradiction.
    + contradiction.
    + destruct Hin as [Heq | []]. rewrite Hsev in Heq.
      injection Heq as <- _ <-. split; reflexivity.
Qed.

End InboundProperties.

Lemma stack_only_outside_production_witness :
  in_ "stack"
    (member (hd VUndefined
               (sent (ExceptionFilter.catch Examples.production Examples.quiet
                        Examples.internal Examples.request))) "error") = false /\
  in_ "stack"
    (member (hd VUndefined
               (sent (ExceptionFilter.catch Examples.development Examples.quiet
                        Examples.internal Examples.request))) "error") = true.
Proof.
  split.
  - refine (proj1 (@stack_only_outside_production Examples.production
                     Examples.quiet Examples.internal Examples.request _ _)
                  eq_refl).
    simpl. left. reflexivity.
  - refine (proj1 (proj2 (@stack_only_outside_production Examples.development
                     Examples.quiet Examples.internal Examples.request _ _)
                  ltac:(discriminate))).
    simpl. left. reflexivity.
Defined.

Lemma app_error_rendered_verbatim_witness :
  member (member (hd VUndefined
                    (sent (ExceptionFilter.catch Examples.production
                             Examples.quiet Examples.internal Examples.request)))
            "error") "message"
  = get "message" Examples.internal.
Proof.
  refine (proj1 (proj1 (@app_error_rendered_verbatim Examples.production
                          Examples.quiet Examples.internal Examples.request _ _)
                       eq_refl)).
  simpl. left. reflexivity.
Defined.

Lemma catch_sends_unless_logging_raises_witness :
  (exists record status body,
      ExceptionFilter.catch Examples.production Examples.quiet
        Examples.notFound Examples.request =
        ([Logged (fst (fst record)) (snd (fst record)) (snd record);
          StatusSet status; JsonSent body], Normal tt) /\
      member body "success" = VBool false /\
      member (member body "error") "statusCode" = status) /\
  ExceptionFilter.catch Examples.production Examples.broken
    Examples.notFound Examples.request = ([], Throw (VStr "EPIPE")) /\
  ExceptionFilter.catch Examples.production Examples.quiet
    Examples.nullResponse Examples.request
  = ([], Throw (VObj (TypeError Examples.production VNull "message"))).
Proof.
  split; [| split].
  - exact (proj1 (proj1 (proj2 (catch_sends_unless_logging_raises
                     Examples.production Examples.quiet Examples.notFound
                     Examples.request)) eq_refl) (fun _ _ _ => eq_refl)).
  - exact (proj1 (proj2 (proj1 (proj2 (catch_sends_unless_logging_raises
                     Examples.production Examples.broken Examples.notFound
                     Examples.request)) eq_refl))
                 (VStr "EPIPE") (fun _ _ _ => eq_refl)).
  - exact (proj1 (catch_sends_unless_logging_raises
                     Examples.production Examples.quiet Examples.nullResponse
                     Examples.request) eq_refl).
Defined.

Lemma untagged_error_logged_as_operational_witness :
  Core.isOperationalError (VObj Examples.boom) = false /\
  forall level logObject msg,
    In (level, logObject, msg)
       (logged (ExceptionFilter.catch Examples.production Examples.quiet
                  Examples.boom Examples.request)) ->
    level = LError /\ msg = "Operational Error".
Proof.
  exact (untagged_error_logged_as_operational Examples.production
           Examples.quiet Examples.boom Examples.request eq_refl).
Defined.

(* ===================================================================== *)
(** ** Scenarios *)
(* ===================================================================== *)

(** A [NotFoundError] with metadata, raised on [/users/999]: status 404
    and the body of the README, without a stack in production. *)
Example scenario_not_found :
  ExceptionFilter.catch Examples.production Examples.quiet Examples.notFound
    Examples.request
  = ([ Logged LError
         (Logger.logObject_of Examples.notFound
            (literal [ ("path", VStr "/users/999"); ("method", VStr "GET");
                       ("statusCode", VNum 404) ]))
         "Operational Error";
       StatusSet (VNum 404);
       JsonSent
         (literal
            [ ("success", VBool false);
              ("error",
                literal [ ("code", VStr "NOT_FOUND");
                          ("message", VStr "User not found");
                          ("statusCode", VNum 404);
                          ("timestamp", VStr "2025-10-31T10:00:00.000Z");
                          ("path", VStr "/users/999");
                          ("context", literal [("userId", VStr "999")]) ]) ]) ],
     Normal tt).
Proof. reflexivity. Qed.

(** A plain [Error] is written to the log once, at the [error]
    severity, marked [isUnexpected]. *)
Example scenario_plain_error_log :
  List.map (fun r => (fst (fst r), member (snd (fst r)) "isUnexpected", snd r))
    (logged (ExceptionFilter.catch Examples.production Examples.quiet
               Examples.boom Examples.request))
  = [(LError, VBool true, "Operational Error")].
Proof. reflexivity. Qed.

(** An [InternalError] is written at the [fatal] severity. *)
Example scenario_internal_error_log :
  List.map (fun r => (fst (fst r), snd r))
    (logged (ExceptionFilter.catch Examples.production Examples.quiet
               Examples.internal Examples.request))
  = [(LFatal, "Programming Error")].
Proof. reflexivity. Qed.

(** [Failure(ValidationError("bad email"))] returned by a handler is
    thrown by the outbound adapter and rendered by the inbound one with
    status 400 and code [VALIDATION_ERROR]. *)
Example scenario_validation_failure :
  let e := Errors.ValidationError Examples.production "bad email"
             VUndefined VUndefined in
  ResultInterceptor.intercept Examples.production
    (Normal (Types.to_array (Core.Err (VObj e)))) = Throw (VObj e) /\
  List.map (fun body => (member (member body "error") "statusCode",
                         member (member body "error") "code"))
    (sent (ExceptionFilter.catch Examples.production Examples.quiet e
             Examples.request))
  = [(VNum 400, VStr "VALIDATION_ERROR")].
Proof. split; reflexivity. Qed.

(** The sibling combinators take [[null, null]] for a success. *)
Example scenario_null_payload :
  Core.unwrap (Core.Ok VNull) = Normal VNull /\
  Core.combine [Core.Ok VNull] = Core.Ok (VArr [VNull]) /\
  ResultInterceptor.intercept Examples.production
    (Normal (Types.to_array (Core.Ok VNull)))
  = Normal (ResultInterceptor.successResponse Examples.production VNull).
Proof. repeat split. Qed.

(* ===================================================================== *)
(** ** Further properties of the tuple combinators *)
(* ===================================================================== *)

Section Combinators.
Import Types Core Wrapping.

(** X1.  [trySync] and [unwrap] undo each other.  [unwrap] of
    [trySync] completes as the thunk does, except that a thrown [null]
    comes back as the returned value [null]; [trySync] of [unwrap]
    gives back every tuple built by [Ok] or [Err], and any other tuple
    as the failure of its error slot. *)
Theorem trySync_unwrap_round_trip (c : completion value) (r : Result) :
  unwrap (trySync (fun _ => c)) =
    match c with
    | Throw VNull => Normal VNull
    | _ => c
    end /\
  trySync (fun _ => unwrap r) =
    (if hasError r then Err (snd r) else Ok (fst r)) /\
  (forall x, trySync (fun _ => unwrap (Ok x)) = Ok x) /\
  (forall e, trySync (fun _ => unwrap (Err e)) = Err e).
Proof.
  split; [| split; [| split]].
  - destruct c as [x | e]; [reflexivity |].
    unfold trySync, unwrap, Err. now destruct e.
  - destruct r as [x e]. unfold trySync, unwrap, hasError. simpl.
    now destruct (is_null e).
  - reflexivity.
  - intros e. unfold trySync, unwrap, Err, Ok.
    destruct (is_null e) eqn:E; simpl; [| reflexivity].
    now rewrite (is_null_true e E).
Qed.

(** X2.  [unwrapOr] returns the default exactly when [unwrap] throws,
    and otherwise the value [unwrap] returns; [unwrap] throws exactly
    when [hasError] holds, and then the error slot itself. *)
Theorem unwrapOr_follows_unwrap (r : Result) (defaultValue : value) :
  (forall v, unwrap r = Normal v -> unwrapOr r defaultValue = v) /\
  (forall e, unwrap r = Throw e -> unwrapOr r defaultValue = defaultValue) /\
  (hasError r = true <-> unwrap r = Throw (snd r)) /\
  (hasError r = false <-> unwrap r = Normal (fst r)).
Proof.
  destruct r as [x e]. unfold unwrap, unwrapOr, hasError. simpl.
  destruct (is_null e); simpl; repeat split; intros; congruence.
Qed.

Lemma unwrapOr_follows_unwrap_witness :
  unwrapOr (Err (VObj Examples.notFound)) (VStr "guest") = VStr "guest" /\
  unwrapOr (Ok (VStr "ada")) (VStr "guest") = VStr "ada".
Proof.
  split.
  - exact (proj1 (proj2 (unwrapOr_follows_unwrap
                           (Err (VObj Examples.notFound)) (VStr "guest")))
                 (VObj Examples.notFound) eq_refl).
  - exact (proj1 (unwrapOr_follows_unwrap (Ok (VStr "ada")) (VStr "guest"))
                 (VStr "ada") eq_refl).
Defined.

(** X3.  [map] composes: mapping twice is mapping once with the
    composed function, on every tuple.  It is [chain] with the function
    wrapped in [Ok], it keeps [hasError] as it is, and on a failure it
    returns the failure whatever the function is. *)
Theorem map_composes (r : Result) (f g h : value -> value) :
  map (map r f) g = map r (fun x => g (f x)) /\
  map r f = chain r (fun x => Ok (f x)) /\
  hasError (map r f) = hasError r /\
  (hasError r = true -> map r f = Err (snd r) /\ map r f = map r h).
Proof.
  destruct r as [x e]. unfold map, chain, hasError, Ok, Err. simpl.
  destruct (is_null e) eqn:E; simpl; rewrite ?E; simpl;
    repeat split; try reflexivity; discriminate.
Qed.

Lemma map_composes_witness :
  map (Err (VObj Examples.notFound)) (fun _ => VNum 1)
  = Err (VObj Examples.notFound).
Proof.
  exact (proj1 (proj2 (proj2 (proj2
           (map_composes (Err (VObj Examples.notFound))
              (fun _ => VNum 1) (fun x => x) (fun x => x)))) eq_refl)).
Defined.

(** X4.  [chain] obeys the laws of a bind: [Ok] on the left is
    application, binding is associative on every tuple, and [Ok] on the
    right gives back every tuple built by [Ok] or [Err]; a tuple with
    both slots filled comes back as the failure of its error slot. *)
Theorem chain_laws (r : Result) (x : value) (f g : value -> Result) :
  chain (Ok x) f = f x /\
  chain (chain r f) g = chain r (fun y => chain (f y) g) /\
  chain r Ok = (if hasError r then Err (snd r) else r) /\
  (forall y, chain (Ok y) Ok = Ok y) /\
  (forall e, chain (Err e) Ok = Err e).
Proof.
  split; [reflexivity |].
  split; [| split; [| split]].
  - destruct r as [y e]. unfold chain. simpl.
    destruct (is_null e) eqn:E; simpl; [reflexivity |].
    now rewrite E.
  - destruct r as [y e]. unfold chain, hasError, Ok, Err. simpl.
    destruct (is_null e) eqn:E; simpl; [| reflexivity].
    now rewrite (is_null_true e E).
  - reflexivity.
  - intros e. unfold chain, Ok, Err.
    destruct (is_null e) eqn:E; simpl; [| reflexivity].
    now rewrite (is_null_true e E).
Qed.

(** X5.  [mapError] leaves a success as it is and replaces the error
    of a failure by its image, dropping the first slot.  The result is
    a failure only if the image is not [null]: a function that returns
    [null] turns a failure into the tuple [[null, null]]. *)
Theorem mapError_image (r : Result) (f : value -> value) :
  (hasError r = false -> mapError r f = r) /\
  (hasError r = true -> mapError r f = Err (f (snd r))) /\
  hasError (mapError r f) = hasError r && negb (is_null (f (snd r))).
Proof.
  destruct r as [x e]. unfold mapError, hasError, Err. simpl.
  destruct (is_null e) eqn:E; simpl.
  - split; [| split; [discriminate | reflexivity]].
    intros _. now rewrite (is_null_true e E).
  - split; [discriminate |]. split; reflexivity.
Qed.

Lemma mapError_image_witness :
  mapError (Ok (VNum 1)) (fun _ => VNull) = Ok (VNum 1) /\
  mapError (Err (VObj Examples.boom)) (fun _ => VNull) = Ok VNull.
Proof.
  split.
  - exact (proj1 (mapError_image (Ok (VNum 1)) (fun _ => VNull)) eq_refl).
  - exact (proj1 (proj2 (mapError_image (Err (VObj Examples.boom))
                           (fun _ => VNull))) eq_refl).
Defined.

(** X6.  [combine] of two lists put end to end: a failure of the first
    list is the answer and the second list is not looked at; if the
    first list has none, a failure of the second list is the answer;
    if neither has one, the answer is [Ok] of all first slots in
    order. *)
Theorem combine_app (rs1 rs2 : list Result) :
  (hasError (combine rs1) = true -> combine (rs1 ++ rs2) = combine rs1) /\
  (hasError (combine rs1) = false -> hasError (combine rs2) = true ->
     combine (rs1 ++ rs2) = combine rs2) /\
  (hasError (combine rs1) = false -> hasError (combine rs2) = false ->
     combine (rs1 ++ rs2) = Ok (VArr (List.map fst rs1 ++ List.map fst rs2))).
Proof.
  unfold combine. rewrite !combine_loop_scan. simpl.
  assert (Hfind : find hasError (rs1 ++ rs2) =
                  match find hasError rs1 with
                  | Some r => Some r
                  | None => find hasError rs2
                  end).
  { induction rs1 as [| r rs1 IH]; simpl; [reflexivity |].
    now destruct (hasError r). }
  rewrite Hfind.
  destruct (find hasError rs1) as [r1 |] eqn:F1.
  - split; [reflexivity |]. split; intros H; exfalso.
    + apply find_some in F1. destruct F1 as [_ H1].
      unfold hasError, Err in H, H1. simpl in H. congruence.
    + apply find_some in F1. destruct F1 as [_ H1].
      unfold hasError, Err in H, H1. simpl in H. congruence.
  - split; [discriminate |].
    destruct (find hasError rs2) as [r2 |] eqn:F2.
    + split; [reflexivity |]. intros _ H. exfalso.
      apply find_some in F2. destruct F2 as [_ H2].
      unfold hasError, Err in H, H2. simpl in H. congruence.
    + split; [discriminate |]. intros _ _. now rewrite List.map_app.
Qed.

Lemma combine_app_witness :
  combine ([Ok (VNum 1); Err (VObj Examples.boom)] ++ [Err (VObj Examples.notFound)])
  = combine [Ok (VNum 1); Err (VObj Examples.boom)] /\
  combine ([Ok (VNum 1)] ++ [Err (VObj Examples.notFound)])
  = combine [Err (VObj Examples.notFound)] /\
  combine ([Ok (VNum 1)] ++ [Ok VNull])
  = Ok (VArr [VNum 1; VNull]).
Proof.
  split; [| split].
  - exact (proj1 (combine_app [Ok (VNum 1); Err (VObj Examples.boom)]
                    [Err (VObj Examples.notFound)]) eq_refl).
  - exact (proj1 (proj2 (combine_app [Ok (VNum 1)]
                    [Err (VObj Examples.notFound)])) eq_refl eq_refl).
  - exact (proj2 (proj2 (combine_app [Ok (VNum 1)] [Ok VNull]))
                 eq_refl eq_refl).
Defined.

End Combinators.

(* ===================================================================== *)
(** ** Properties of the asynchronous combinators *)
(* ===================================================================== *)

Section Asynchronous.
Import Types Core Wrapping.

(** X7.  The promise of [tryAsync] is never rejected: whether the
    thunk throws before it returns a promise or returns a promise that
    is rejected, the promise of [tryAsync] is fulfilled, with what
    [trySync] gives for a thunk completing the same way.  The same
    holds for [wrapPromise]. *)
Theorem tryAsync_never_rejects (fn : unit -> completion (Promise value))
    (promise : Promise value) :
  tryAsync fn =
    Normal (trySync (fun _ => match fn tt with
                              | Normal p => p
                              | Throw thrown => Throw thrown
                              end)) /\
  wrapPromise promise = Normal (trySync (fun _ => promise)) /\
  (forall reason, tryAsync fn <> Throw reason) /\
  (forall reason, wrapPromise promise <> Throw reason).
Proof.
  unfold wrapPromise, tryAsync, trySync.
  destruct (fn tt) as [[x | e] | e]; destruct promise as [y | e'];
    repeat split; discriminate.
Qed.

(** X8.  On a promise fulfilled with a tuple and a function that
    returns plain values, [mapAsync] and [chainAsync] give the promise
    fulfilled with what [map] and [chain] give.  On a failure tuple
    they are fulfilled with that failure whatever the function is. *)
Theorem async_agrees_with_sync (r : Result) (f : value -> value)
    (g : value -> Result) :
  mapAsync (Normal r) (fun x => Normal (Normal (f x))) = Normal (map r f) /\
  chainAsync (Normal r) (fun x => Normal (Normal (g x))) = Normal (chain r g) /\
  (hasError r = true ->
     forall fn fn',
       mapAsync (Normal r) fn = Normal (Err (snd r)) /\
       chainAsync (Normal r) fn' = Normal (Err (snd r))).
Proof.
  destruct r as [x e]. unfold mapAsync, chainAsync, map, chain, hasError, Err.
  simpl. destruct (is_null e); simpl; repeat split; discriminate.
Qed.

Lemma async_agrees_with_sync_witness :
  mapAsync (Normal (Err (VObj Examples.boom))) (fun _ => Throw (VStr "late"))
  = Normal (Err (VObj Examples.boom)).
Proof.
  exact (proj1 (proj2 (proj2 (async_agrees_with_sync
                  (Err (VObj Examples.boom)) (fun x => x) (fun x => Ok x)))
                eq_refl (fun _ => Throw (VStr "late"))
                (fun _ => Throw (VStr "late")))).
Defined.

(** X9.  [mapAsync] and [chainAsync] do not catch.  They are rejected
    exactly when the promise they are given is rejected, or it is
    fulfilled with a tuple without an error and the function then
    throws or returns a rejected promise; the reason is handed on
    unchanged. *)
Theorem async_rejections (result : AsyncResult)
    (fn : value -> completion (Promise value))
    (fn' : value -> completion AsyncResult) (reason : value) :
  (mapAsync result fn = Throw reason <->
     result = Throw reason \/
     exists r, result = Normal r /\ hasError r = false /\
               (fn (fst r) = Throw reason \/ fn (fst r) = Normal (Throw reason))) /\
  (chainAsync result fn' = Throw reason <->
     result = Throw reason \/
     exists r, result = Normal r /\ hasError r = false /\
               (fn' (fst r) = Throw reason \/ fn' (fst r) = Normal (Throw reason))).
Proof.
  split.
  - destruct result as [[x e] | e0]; unfold mapAsync, hasError; simpl.
    + destruct (is_null e) eqn:E; simpl.
      * destruct (fn x) as [[y | e1] | e1] eqn:F; split.
        -- discriminate.
        -- intros [H | (r & Hr & _ & [H | H])]; [discriminate | |];
             injection Hr as <-; simpl in H; congruence.
        -- intros H. right. exists (x, e). simpl. rewrite E, F.
           split; [reflexivity |]. split; [reflexivity |]. right.
           injection H as ->. reflexivity.
        -- intros [H | (r & Hr & _ & [H | H])]; [discriminate | |];
             injection Hr as <-; simpl in H; congruence.
        -- intros H. right. exists (x, e). simpl. rewrite E, F.
           split; [reflexivity |]. split; [reflexivity |]. left.
           injection H as ->. reflexivity.
        -- intros [H | (r & Hr & _ & [H | H])]; [discriminate | |];
             injection Hr as <-; simpl in H; congruence.
      * split; [discriminate |].
        intros [H | (r & Hr & Hn & _)]; [discriminate |].
        injection Hr as <-. simpl in Hn. rewrite E in Hn. discriminate.
    + split.
      * intros H. now left.
      * intros [H | (r & Hr & _)]; [exact H | discriminate].
  - destruct result as [[x e] | e0]; unfold chainAsync, hasError; simpl.
    + destruct (is_null e) eqn:E; simpl.
      * destruct (fn' x) as [p | e1] eqn:F; split.
        -- intros H. right. exists (x, e). simpl. rewrite E, F.
           split; [reflexivity |]. split; [reflexivity |]. right.
           now rewrite H.
        -- intros [H | (r & Hr & _ & [H | H])]; [discriminate | |];
             injection Hr as <-; simpl in H; congruence.
        -- intros H. right. exists (x, e). simpl. rewrite E, F.
           split; [reflexivity |]. split; [reflexivity |]. left.
           injection H as ->. reflexivity.
        -- intros [H | (r & Hr & _ & [H | H])]; [discriminate | |];
             injection Hr as <-; simpl in H; congruence.
      * split; [discriminate |].
        intros [H | (r & Hr & Hn & _)]; [discriminate |].
        injection Hr as <-. simpl in Hn. rewrite E in Hn. discriminate.
    + split.
      * intros H. now left.
      * intros [H | (r & Hr & _)]; [exact H | discriminate].
Qed.

Lemma fulfilled_all (rs : list Result) :
  fulfilled (List.map (fun r => Normal r) rs) = Some rs.
Proof.
  induction rs as [| r rs IH]; simpl; [reflexivity | now rewrite IH].
Qed.

Lemma fulfilled_none (results : list AsyncResult) :
  fulfilled results = None -> rejections results <> [].
Proof.
  induction results as [| [r | e] results IH]; simpl.
  - discriminate.
  - destruct (fulfilled results); [discriminate | exact IH].
  - discriminate.
Qed.

Lemma rejections_In (results : list AsyncResult) (reason : value) :
  In reason (rejections results) <-> In (Throw reason) results.
Proof.
  induction results as [| [r | e] results IH]; simpl.
  - tauto.
  - rewrite IH. split; [tauto | intros [H | H]; [discriminate | exact H]].
  - rewrite IH. split; intros [H | H]; try tauto; left; congruence.
Qed.

(** X10.  When every promise given to [combineAsync] is fulfilled, its
    one settlement is the promise fulfilled with [combine] of the
    tuples in list order, so the failure reported is the first in the
    list.  When a promise is rejected, every settlement is a rejection
    with the reason of one of the rejected promises, and there is one:
    failure tuples in the list, however early, are not reported. *)
Theorem combineAsync_settlements (rs : list Result)
    (results : list AsyncResult) (settlement : Promise Result) :
  combineAsync (List.map (fun r => Normal r) rs) = [Normal (combine rs)] /\
  ((exists reason, In (Throw reason) results) ->
     combineAsync results <> [] /\
     (In settlement (combineAsync results) ->
        exists reason, settlement = Throw reason /\ In (Throw reason) results)).
Proof.
  split.
  - unfold combineAsync. now rewrite fulfilled_all.
  - intros (reason & Hin).
    assert (Hnone : fulfilled results = None).
    { clear settlement. induction results as [| [r | e] results IH]; simpl in *.
      - contradiction.
      - destruct Hin as [H | H]; [discriminate |]. now rewrite (IH H).
      - reflexivity. }
    unfold combineAsync. rewrite Hnone. split.
    + intros H. apply map_eq_nil in H. now apply fulfilled_none in Hnone.
    + intros H. apply in_map_iff in H. destruct H as (e & <- & He).
      exists e. split; [reflexivity |]. now apply rejections_In.
Qed.

Lemma combineAsync_settlements_witness :
  combineAsync [Normal (Err (VObj Examples.notFound)); Throw (VStr "ETIMEDOUT")]
  <> [].
Proof.
  exact (proj1 (proj2 (combineAsync_settlements []
                  [Normal (Err (VObj Examples.notFound)); Throw (VStr "ETIMEDOUT")]
                  (Throw (VStr "ETIMEDOUT")))
               (ex_intro _ (VStr "ETIMEDOUT") (or_intror (or_introl eq_refl))))).
Defined.

End Asynchronous.

(* ===================================================================== *)
(** ** Further properties of the error taxonomy *)
(* ===================================================================== *)

Section Taxonomy.
Import Errors Core ErrorsJson Logger.

Lemma eqb_other (k k' : string) : k <> k' -> String.eqb k' k = false.
Proof. intros H. apply String.eqb_neq. congruence. Qed.

(** What [AppError] makes of the context of a subclass, under a key
    that neither of them writes. *)
Lemma subclass_context_keeps (entries : list (string * value))
    (code status stamp : value) (k : string) :
  k <> "code" -> k <> "statusCode" -> k <> "timestamp" ->
  member (literal (own_entries
                     (literal (own_entries (literal entries) ++
                               [("code", code); ("statusCode", status)]))
                   ++ [("timestamp", stamp)])) k
  = member (literal entries) k.
Proof.
  intros Hc Hs Ht.
  assert (Hsplit : (own_entries (literal entries)
                      ++ [("code", code); ("statusCode", status)]
                    = (own_entries (literal entries) ++ [("code", code)])
                        ++ [("statusCode", status)])%list)
    by now rewrite <- app_assoc.
  rewrite Hsplit.
  rewrite member_literal_snoc, (eqb_other Ht).
  rewrite literal_spread.
  rewrite member_literal_snoc, (eqb_other Hs).
  rewrite member_literal_snoc, (eqb_other Hc).
  now rewrite literal_spread.
Qed.

(** X11.  The eight constructors of the taxonomy keep what the
    caller's context holds under every key other than [code],
    [statusCode] and [timestamp] ([metadata], [operation], any other
    key), and the base [AppError] keeps [code] and [statusCode] as
    well: it overwrites [timestamp] only. *)
Theorem constructors_keep_context :
  keeps_context ValidationError /\
  keeps_context NotFoundError /\
  keeps_context UnauthorizedError /\
  keeps_context ForbiddenError /\
  keeps_context ConflictError /\
  keeps_context InternalError /\
  keeps_context ExternalServiceError /\
  keeps_context TimeoutError /\
  (forall rt message entries originalError isOperational k,
      k <> "timestamp" ->
      member (get "context"
                (AppError rt message (literal entries) originalError
                   isOperational)) k
      = member (literal entries) k).
Proof.
  repeat match goal with |- _ /\ _ => split end;
    try (intros rt message entries originalError k Hc Hs Ht;
         now apply subclass_context_keeps).
  intros rt message entries originalError isOperational k Ht.
  change (member (literal (own_entries (literal entries)
                           ++ [("timestamp", VDate (clock rt))])) k
          = member (literal entries) k).
  rewrite member_literal_snoc, (eqb_other Ht).
  now rewrite literal_spread.
Qed.

Lemma constructors_keep_context_witness :
  member (get "context" Examples.notFound) "metadata"
  = literal [("userId", VStr "999")].
Proof.
  exact (proj1 (proj2 constructors_keep_context) Examples.production
           "User not found" [("metadata", literal [("userId", VStr "999")])]
           VUndefined "metadata"
           ltac:(discriminate) ltac:(discriminate) ltac:(discriminate)).
Defined.

(** X12.  [wrapError] builds a base [AppError] with the new message
    that is operational and holds the wrapped error, unchanged, as
    [originalError]; it pins no status or code, so the caller's pass
    through; and [enhanceError] returns it as it is. *)
Theorem wrapError_keeps_cause (rt rt' : Runtime) (error : obj)
    (message : string) (entries : list (string * value)) (context' : value) :
  let wrapped := wrapError rt error message (literal entries) in
  get "originalError" wrapped = VObj error /\
  get "message" wrapped = VStr message /\
  get "name" wrapped = VStr "AppError" /\
  cls wrapped = AppErrorC /\
  isOperationalError (VObj wrapped) = true /\
  member (get "context" wrapped) "statusCode"
    = member (literal entries) "statusCode" /\
  member (get "context" wrapped) "code" = member (literal entries) "code" /\
  member (get "context" wrapped) "timestamp" = VDate (clock rt) /\
  enhanceError rt' wrapped context' = wrapped.
Proof.
  cbv zeta. unfold wrapError.
  repeat match goal with |- _ /\ _ => split end; try reflexivity.
  - change (member (literal (own_entries (literal entries)
                             ++ [("timestamp", VDate (clock rt))])) "statusCode"
            = member (literal entries) "statusCode").
    rewrite member_literal_snoc, eqb_other by discriminate.
    now rewrite literal_spread.
  - change (member (literal (own_entries (literal entries)
                             ++ [("timestamp", VDate (clock rt))])) "code"
            = member (literal entries) "code").
    rewrite member_literal_snoc, eqb_other by discriminate.
    now rewrite literal_spread.
  - change (member (literal (own_entries (literal entries)
                             ++ [("timestamp", VDate (clock rt))])) "timestamp"
            = VDate (clock rt)).
    now rewrite member_literal_snoc.
Qed.


(** X14.  What [toJSON] reports about the cause of an error is what
    [logError] writes about it: when [originalError] is set, both hold
    its [name], [message] and [stack] and nothing else of it, whatever
    the additional context of the call; and when the error has a
    context, both hold that context. *)
Theorem toJSON_agrees_with_log (error : obj) (additionalContext : value) :
  (truthy (get "originalError" error) = true ->
     member (logObject_of error additionalContext) "originalError"
       = member (toJSON error) "originalError" /\
     Object_keys (member (toJSON error) "originalError")
       = ["name"; "message"; "stack"]) /\
  (truthy (get "originalError" error) = false ->
     member (toJSON error) "originalError" = VUndefined) /\
  (truthy (get "context" error) = true ->
     member (logObject_of error additionalContext) "context"
       = member (toJSON error) "context" /\
     member (toJSON error) "context" = get "context" error).
Proof.
  unfold logObject_of, toJSON, summary.
  destruct (truthy (get "originalError" error)) eqn:Ho;
    destruct (truthy (get "context" error)) eqn:Hc;
    (split; [| split]); try discriminate; intros _;
    unfold member at 1, get at 1; cbn [props];
    rewrite ?lookup_set_same;
    try (rewrite lookup_set_other by discriminate; rewrite lookup_set_same);
    try (split; reflexivity); reflexivity.
Qed.

End Taxonomy.

Lemma toJSON_agrees_with_log_witness :
  member (ErrorsJson.toJSON
            (Core.wrapError Examples.production Examples.boom "lookup failed"
               VUndefined)) "originalError"
  = literal [ ("name", VStr "Error"); ("message", VStr "boom");
              ("stack", VStr (stackTrace Examples.production)) ].
Proof.
  refine (eq_trans (eq_sym (proj1 (proj1 (toJSON_agrees_with_log
            (Core.wrapError Examples.production Examples.boom "lookup failed"
               VUndefined) VUndefined) eq_refl))) _).
  reflexivity.
Defined.

(* ===================================================================== *)
(** ** Further properties of the logger *)
(* ===================================================================== *)

Section LoggerRecords.
Import Logger LoggerOptions.

Lemma lookup_absent (k : string) (ps : list (string * value)) :
  ~ In k (List.map fst ps) -> lookup k ps = None.
Proof.
  induction ps as [| [k' v'] ps IH]; simpl; intros H; [reflexivity |].
  destruct (String.eqb_spec k' k) as [-> | _]; [tauto |].
  apply IH. tauto.
Qed.

(** Assigning the entries of an object, which holds no key twice, on
    top of other properties. *)
Lemma lookup_assign_over (k : string) (entries ps : list (string * value)) :
  NoDup (List.map fst entries) ->
  lookup k (assign ps entries) =
  match lookup k entries with
  | Some v => Some v
  | None => lookup k ps
  end.
Proof.
  unfold assign. revert ps.
  induction entries as [| [k' v'] entries IH]; intros ps Hnd; simpl.
  - reflexivity.
  - inversion Hnd as [| ? ? Hnotin Hrest]; subst.
    rewrite (IH _ Hrest).
    destruct (String.eqb_spec k' k) as [-> | Hne].
    + rewrite (lookup_absent _ _ Hnotin). apply lookup_set_same.
    + destruct (lookup k entries); [reflexivity |].
      apply lookup_set_other. congruence.
Qed.

(** X15.  [logError] writes every key of the additional context as it
    was given, except [context] and [originalError], which the error's
    own replace when it has them.  This includes the key [error]: an
    additional context that has one replaces the summary of the error
    in the record; without one, [error] is the summary. *)
Theorem log_record_fields (error : obj) (entries : list (string * value))
    (k : string) :
  k <> "context" ->
  k <> "originalError" ->
  member (logObject_of error (literal entries)) k =
    (if in_ k (literal entries) then member (literal entries) k
     else if String.eqb k "error" then summary (VObj error)
     else VUndefined).
Proof.
  intros Hc Ho.
  assert (Hbase :
    lookup k (assign [] (("error", summary (VObj error))
                           :: own_entries (literal entries)))
    = match lookup k (assign [] entries) with
      | Some v => Some v
      | None => if String.eqb k "error" then Some (summary (VObj error))
                else None
      end).
  { replace (own_entries (literal entries)) with (assign [] entries)
      by (unfold literal; now rewrite own_entries_plain).
    change (assign [] (("error", summary (VObj error)) :: assign [] entries))
      with (assign [("error", summary (VObj error))] (assign [] entries)).
    rewrite lookup_assign_over by (apply assign_keys; constructor).
    destruct (lookup k (assign [] entries)); [reflexivity |].
    simpl. now rewrite String.eqb_sym. }
  unfold logObject_of.
  destruct (truthy (get "context" error));
    destruct (truthy (get "originalError" error));
    unfold member at 1, get at 1; cbn [props cls];
    rewrite ?lookup_set_other by congruence;
    rewrite Hbase; unfold literal, in_, has_prop, member, get; cbn [props cls];
    destruct (lookup k (assign [] entries)); try reflexivity;
    now destruct (String.eqb k "error").
Qed.

Lemma log_record_fields_witness :
  member (logObject_of Examples.boom
            (literal [("error", VStr "shadowed"); ("userId", VStr "7")]))
    "error"
  = VStr "shadowed".
Proof.
  exact (@log_record_fields Examples.boom
           [("error", VStr "shadowed"); ("userId", VStr "7")] "error"
           ltac:(discriminate) ltac:(discriminate)).
Defined.

Lemma member_baseOptions (options : ErrorLoggerOptions) :
  member (literal (baseOptions options)) "redact" =
  literal [ ("paths",
              VArr (List.map VStr
                      (default_paths ++
                       match redactPaths options with
                       | Some paths => paths
                       | None => []
                       end)));
            ("remove", VBool true) ].
Proof.
  unfold baseOptions. now rewrite member_literal_snoc.
Qed.

(** X16.  Whatever options the logger is constructed with, the
    options handed to pino redact the five default paths, listed
    first, followed by the caller's, and remove them; a [redact] among
    the caller's pino options is replaced.  The pretty transport is set
    exactly when [prettify] is [true] and [NODE_ENV] is not
    ['production']; otherwise [transport] is what the caller's pino
    options say. *)
Theorem constructor_redacts (rt : Runtime) (options : option ErrorLoggerOptions) :
  let given := match options with Some o => o | None => no_options end in
  let extra := match redactPaths given with Some paths => paths | None => [] end in
  let handed := constructor rt options in
  member (member handed "redact") "paths"
    = VArr (List.map VStr (default_paths ++ extra)) /\
  member (member handed "redact") "remove" = VBool true /\
  (prettify given = Some true -> NODE_ENV rt <> VStr "production" ->
     member (member handed "transport") "target" = VStr "pino-pretty") /\
  (prettify given <> Some true \/ NODE_ENV rt = VStr "production" ->
     member handed "transport" = member (literal (pinoOptions given)) "transport").
Proof.
  cbv zeta. unfold constructor.
  set (given := match options with Some o => o | None => no_options end).
  assert (Hprod : NODE_ENV rt <> VStr "production" ->
                  is_string_lit "production" (NODE_ENV rt) = false).
  { intros Hne. unfold is_string_lit. destruct (NODE_ENV rt); try reflexivity.
    destruct (String.eqb_spec s "production"); [congruence | reflexivity]. }
  assert (Hbase : member (literal (baseOptions given)) "transport"
                  = member (literal (pinoOptions given)) "transport").
  { unfold baseOptions. now rewrite member_literal_snoc. }
  destruct (prettify given) as [[|] |] eqn:Hp; simpl andb.
  - destruct (is_string_lit "production" (NODE_ENV rt)) eqn:Hn; simpl negb; cbv iota.
    + rewrite member_baseOptions.
      split; [reflexivity |]. split; [reflexivity |]. split.
      * intros _ Hne. discriminate (Hprod Hne).
      * intros _. exact Hbase.
    + rewrite !member_literal_snoc. simpl String.eqb. cbv iota.
      rewrite member_baseOptions.
      split; [reflexivity |]. split; [reflexivity |]. split.
      * intros _ _. reflexivity.
      * intros [H | H]; [congruence |].
        unfold is_string_lit in Hn. rewrite H in Hn. discriminate.
  - cbv iota. rewrite member_baseOptions.
    split; [reflexivity |]. split; [reflexivity |]. split; [discriminate |].
    intros _. exact Hbase.
  - cbv iota. rewrite member_baseOptions.
    split; [reflexivity |]. split; [reflexivity |]. split; [discriminate |].
    intros _. exact Hbase.
Qed.

End LoggerRecords.

Lemma constructor_redacts_witness :
  member (member (LoggerOptions.constructor Examples.development
                    (Some {| LoggerOptions.prettify := Some true;
                             LoggerOptions.redactPaths := Some ["ssn"];
                             LoggerOptions.pinoOptions :=
                               [("redact", VBool false)] |}))
            "transport") "target"
  = VStr "pino-pretty" /\
  member (LoggerOptions.constructor Examples.production
            (Some {| LoggerOptions.prettify := Some true;
                     LoggerOptions.redactPaths := Some ["ssn"];
                     LoggerOptions.pinoOptions := [("redact", VBool false)] |}))
    "transport"
  = VUndefined.
Proof.
  split.
  - exact (proj1 (proj2 (proj2 (constructor_redacts Examples.development
                    (Some {| LoggerOptions.prettify := Some true;
                             LoggerOptions.redactPaths := Some ["ssn"];
                             LoggerOptions.pinoOptions :=
                               [("redact", VBool false)] |}))))
                 eq_refl ltac:(discriminate)).
  - exact (proj2 (proj2 (proj2 (constructor_redacts Examples.production
                    (Some {| LoggerOptions.prettify := Some true;
                             LoggerOptions.redactPaths := Some ["ssn"];
                             LoggerOptions.pinoOptions :=
                               [("redact", VBool false)] |}))))
                 (or_intror eq_refl)).
Defined.

(* ===================================================================== *)
(** ** Further properties of the inbound adapter *)
(* ===================================================================== *)

Section Inbound.
Import Errors Core Logger ExceptionFilter.

(** No [HttpException] is an [AppError]. *)
Lemma HttpException_not_AppError (exception : obj) :
  instanceof exception HttpExceptionC = true ->
  instanceof exception AppErrorC = false.
Proof.
  unfold instanceof. now destruct (cls exception).
Qed.

(** The request fields in the record that [logError] is asked to
    write by the filter. *)
Lemma logObject_request_fields (exception : obj) (request : Request)
    (status : value) (more : list (string * value)) :
  (forall k v, In (k, v) more -> k = "isUnexpected") ->
  let logObject :=
    logObject_of exception
      (literal ([ ("path", VStr (url request));
                  ("method", VStr (method request));
                  ("statusCode", status) ] ++ more)) in
  member logObject "path" = VStr (url request) /\
  member logObject "method" = VStr (method request) /\
  member logObject "statusCode" = status.
Proof.
  intros Hmore. cbv zeta.
  assert (H : forall k, k <> "isUnexpected" ->
            member (literal ([ ("path", VStr (url request));
                               ("method", VStr (method request));
                               ("statusCode", status) ] ++ more)) k
            = member (literal [ ("path", VStr (url request));
                                ("method", VStr (method request));
                                ("statusCode", status) ]) k).
  { intros k Hk. induction more as [| [k' v'] more IH] using rev_ind.
    - now rewrite app_nil_r.
    - rewrite app_assoc, member_literal_snoc.
      assert (k' = "isUnexpected")
        by (apply (Hmore k' v'); apply in_or_app; right; now left).
      subst k'. rewrite (eqb_other Hk).
      apply IH. intros k0 v0 Hin. apply (Hmore k0 v0).
      apply in_or_app. now left. }
  assert (Hin : forall k, k = "path" \/ k = "method" \/ k = "statusCode" ->
            in_ k (literal ([ ("path", VStr (url request));
                              ("method", VStr (method request));
                              ("statusCode", status) ] ++ more)) = true).
  { clear H. intros k Hk. unfold in_, literal, has_prop. cbn [props].
    induction more as [| [k' v'] more IH] using rev_ind.
    - rewrite app_nil_r. destruct Hk as [-> | [-> | ->]]; reflexivity.
    - rewrite app_assoc, lookup_assign_snoc.
      destruct (String.eqb k' k); [reflexivity |].
      apply IH. intros k0 v0 Hin0. apply (Hmore k0 v0).
      apply in_or_app. now left. }
  repeat match goal with |- _ /\ _ => split end;
    rewrite log_record_fields by discriminate;
    rewrite Hin by tauto; rewrite H by discriminate; reflexivity.
Qed.

Lemma errorResponse_stamp (rt : Runtime) (exception : obj) (request : Request)
    (status message code context : value) :
  member (errorResponse rt exception request status message code context)
    "success" = VBool false /\
  member (member (errorResponse rt exception request status message code context)
            "error") "timestamp"
  = VStr (toISOString rt (clock rt)).
Proof.
  unfold errorResponse.
  destruct (Nat.ltb 0 (List.length (Object_keys context)));
    destruct (not_production rt); split; reflexivity.
Qed.

(** X17.  Whenever the inbound adapter sends a body, it has done three
    things in this order and nothing else: written one log record, set
    the status, sent the body.  The [statusCode] in the record, the
    status set on the response and the [statusCode] in the body are one
    value; the record and the body carry the request's path, the record
    its method; and the body has [success: false] and the clock reading
    in ISO form. *)
Theorem response_matches_log (rt : Runtime) (logger : Pino) (exception : obj)
    (request : Request) (body : value) :
  In body (sent (catch rt logger exception request)) ->
  exists level logObject msg status,
    catch rt logger exception request =
      ([Logged level logObject msg; StatusSet status; JsonSent body],
       Normal tt) /\
    member logObject "statusCode" = status /\
    member (member body "error") "statusCode" = status /\
    member logObject "path" = VStr (url request) /\
    member (member body "error") "path" = VStr (url request) /\
    member logObject "method" = VStr (method request) /\
    member body "success" = VBool false /\
    member (member body "error") "timestamp"
      = VStr (toISOString rt (clock rt)).
Proof.
  unfold catch.
  destruct (instanceof exception AppErrorC) eqn:HA;
    [ rewrite (AppError_not_HttpException exception HA)
    | destruct (instanceof exception HttpExceptionC) eqn:HH;
      [ destruct (getResponse exception) as [| | b | n | s | d | items | o] |] ];
    cbn -[logError errorResponse logObject_of literal];
    try (intros Hin; exact (False_ind _ Hin));
    rewrite logError_run;
    match goal with
    | |- context [logObject_of exception (literal ?es)] =>
        match es with
        | [?p; ?m; (_, ?st)] =>
            pose proof (@logObject_request_fields exception request st []
                          ltac:(intros ? ? []))
              as (Hp & Hm & Hs)
        | [?p; ?m; (_, ?st); ?u] =>
            pose proof (@logObject_request_fields exception request st [u]
                          ltac:(intros ? ? [Hu | []]; now inversion Hu))
              as (Hp & Hm & Hs)
        end;
        simpl app in Hp, Hm, Hs;
        destruct (logger (fst (severity exception))
                         (logObject_of exception (literal es))
                         (snd (severity exception)))
    end;
    cbn -[errorResponse logObject_of literal];
    intros Hin; try contradiction;
    destruct Hin as [<- | []];
    match goal with
    | |- context [errorResponse ?a ?b ?c ?d ?e ?f ?g] =>
        destruct (errorResponse_error a b c d e f g)
          as (_ & _ & Hbs & Hbp & _);
        destruct (errorResponse_stamp a b c d e f g) as (Hsuccess & Hstamp)
    end;
    do 4 eexists; (split; [reflexivity |]);
    (split; [exact Hs |]); (split; [exact Hbs |]);
    (split; [exact Hp |]); (split; [exact Hbp |]);
    (split; [exact Hm |]); (split; [exact Hsuccess | exact Hstamp]).
Qed.

(** X18.  An [HttpException] of the framework is rendered with the
    status it reports, never with a [context], and its log call is
    marked [isUnexpected].  If its response is a string, that string
    is the message and the code is [INTERNAL_ERROR] whatever the
    status; if its response is an object, the message is its [message]
    and the code its [error], each replaced by the default when
    falsy. *)
Theorem http_exception_rendered (rt : Runtime) (logger : Pino)
    (exception : obj) (request : Request) (body : value) :
  instanceof exception HttpExceptionC = true ->
  In body (sent (catch rt logger exception request)) ->
  member (member body "error") "statusCode" = getStatus exception /\
  In (StatusSet (getStatus exception))
     (trace (catch rt logger exception request)) /\
  member (member body "error") "context" = VUndefined /\
  (forall level logObject msg,
      In (level, logObject, msg) (logged (catch rt logger exception request)) ->
      member logObject "isUnexpected" = VBool true) /\
  (forall s, getResponse exception = VStr s ->
     member (member body "error") "message" = VStr s /\
     member (member body "error") "code" = VStr "INTERNAL_ERROR") /\
  (forall o, getResponse exception = VObj o ->
     member (member body "error") "message"
       = or_else (get "message" o) (VStr "Internal server error") /\
     member (member body "error") "code"
       = or_else (get "error" o) (VStr "INTERNAL_ERROR")).
Proof.
  intros HH. unfold catch.
  rewrite (HttpException_not_AppError exception HH), HH.
  assert (Hflag : forall st,
    member (logObject_of exception
              (literal [ ("path", VStr (url request));
                         ("method", VStr (method request));
                         ("statusCode", st);
                         ("isUnexpected", VBool true) ])) "isUnexpected"
    = VBool true).
  { intros st. rewrite log_record_fields by discriminate. reflexivity. }
  destruct (getResponse exception) as [| | b | n | s0 | d | items | o0];
    cbn -[logError errorResponse logObject_of literal getStatus];
    try (intros Hin; exact (False_ind _ Hin));
    rewrite logError_run;
    match goal with
    | |- context [logger ?l ?o ?m] => destruct (logger l o m)
    end;
    cbn -[errorResponse logObject_of literal getStatus];
    intros Hin; try contradiction;
    destruct Hin as [<- | []];
    match goal with
    | |- context [errorResponse ?a ?b ?c ?d ?e ?f ?g] =>
        destruct (errorResponse_error a b c d e f g)
          as (Hc & Hm & Hs & _ & Hx & _)
    end;
    rewrite Hc, Hm, Hs, Hx;
    (split; [reflexivity |]); (split; [auto |]); (split; [reflexivity |]);
    (split; [intros level logObject msg [Heq | []];
             injection Heq as _ <- _; apply Hflag |]);
    (split; [intros s Hr | intros o Hr]);
    try discriminate Hr;
    injection Hr as <-; split; reflexivity.
Qed.

Lemma taxonomy_error_rendered (self : class) (code : string) (statusCode : Z)
    (isOperational : bool) (rt rt' rt'' : Runtime) (logger : Pino)
    (request : Request) (message : string) (context originalError : value)
    (body : value) :
  inherits 3 self AppErrorC = true ->
  statusCode <> 0%Z ->
  code <> "" ->
  let e := AppError_from self rt message
             (literal (own_entries context ++
                       [("code", VStr code); ("statusCode", VNum statusCode)]))
             originalError isOperational in
  ResultInterceptor.intercept rt'
    (Normal (Types.to_array (Err (VObj e)))) = Throw (VObj e) /\
  (In body (sent (catch rt'' logger e request)) ->
   In (StatusSet (VNum statusCode)) (trace (catch rt'' logger e request)) /\
   member (member body "error") "statusCode" = VNum statusCode /\
   member (member body "error") "code" = VStr code /\
   member (member body "error") "message" = VStr message).
Proof.
  intros Hself Hstatus Hcode e.
  split; [reflexivity |].
  intros Hin.
  destruct (AppError_from_pins self code statusCode isOperational rt message
              context originalError Hself)
    as (Pc & Ps & _ & _ & Pm & _ & Pa).
  fold e in Pc, Ps, Pm, Pa.
  destruct (sent_body _ _ _ _ _ Hin)
    as (extra & status & msg & cd & ctx & Hrun & -> & HA & _).
  destruct (HA Pa) as (-> & -> & -> & _).
  destruct (errorResponse_error rt'' e request
              (or_else (member (get "context" e) "statusCode") (VNum 500))
              (get "message" e)
              (or_else (member (get "context" e) "code") (VStr "INTERNAL_ERROR"))
              ctx)
    as (Hc & Hm & Hs & _).
  rewrite Hc, Hm, Hs, Hrun, Pc, Ps, Pm.
  assert (Ht : or_else (VNum statusCode) (VNum 500) = VNum statusCode).
  { unfold or_else, truthy.
    destruct (Z.eqb_spec statusCode 0); [contradiction | reflexivity]. }
  assert (Hk : or_else (VStr code) (VStr "INTERNAL_ERROR") = VStr code).
  { unfold or_else, truthy.
    destruct (String.eqb_spec code ""); [contradiction | reflexivity]. }
  rewrite Ht, Hk. repeat split. simpl. auto.
Qed.

(** X19.  For each of the eight constructors of the taxonomy: a
    handler that returns [Err(e)] for an error [e] it built has [e]
    thrown by the outbound adapter, and every body the inbound adapter
    sends for [e] carries the constructor's status, also set on the
    response, the constructor's code, and the message [e] was built
    with, whatever the caller's context held. *)
Theorem taxonomy_end_to_end :
  renders ValidationError "VALIDATION_ERROR" 400 /\
  renders NotFoundError "NOT_FOUND" 404 /\
  renders UnauthorizedError "UNAUTHORIZED" 401 /\
  renders ForbiddenError "FORBIDDEN" 403 /\
  renders ConflictError "CONFLICT" 409 /\
  renders InternalError "INTERNAL_ERROR" 500 /\
  renders ExternalServiceError "EXTERNAL_SERVICE_ERROR" 502 /\
  renders TimeoutError "TIMEOUT" 408.
Proof.
  repeat match goal with |- _ /\ _ => split end;
    intros rt rt' rt'' logger request message context originalError body;
    apply taxonomy_error_rendered; (reflexivity || discriminate).
Qed.

End Inbound.

Lemma http_exception_rendered_witness :
  member (member (hd VUndefined
                    (sent (ExceptionFilter.catch Examples.production
                             Examples.quiet
                             (HttpException Examples.production
                                (VStr "Cannot GET /nowhere") 404)
                             Examples.request))) "error") "code"
  = VStr "INTERNAL_ERROR".
Proof.
  refine (proj2 (proj1 (proj2 (proj2 (proj2 (proj2
            (@http_exception_rendered Examples.production Examples.quiet
               (HttpException Examples.production
                  (VStr "Cannot GET /nowhere") 404)
               Examples.request _ eq_refl _)))))
            "Cannot GET /nowhere" eq_refl)).
  simpl. left. reflexivity.
Defined.

Lemma taxonomy_end_to_end_witness :
  member (member (hd VUndefined
                    (sent (ExceptionFilter.catch Examples.development
                             Examples.quiet Examples.notFound
                             Examples.request))) "error") "code"
  = VStr "NOT_FOUND".
Proof.
  refine (proj1 (proj2 (proj2 (proj2
            (proj1 (proj2 taxonomy_end_to_end) Examples.production
               Examples.production Examples.development Examples.quiet
               Examples.request "User not found"
               (literal [("metadata", literal [("userId", VStr "999")])])
               VUndefined _) _)))).
  simpl. left. reflexivity.
Defined.

Lemma response_matches_log_witness :
  exists level logObject msg status,
    ExceptionFilter.catch Examples.development Examples.quiet Examples.boom
      Examples.request =
      ([Logged level logObject msg; StatusSet status;
        JsonSent (hd VUndefined
                    (sent (ExceptionFilter.catch Examples.development
                             Examples.quiet Examples.boom Examples.request)))],
       Normal tt) /\
    member logObject "statusCode" = status.
Proof.
  destruct (@response_matches_log Examples.development Examples.quiet
              Examples.boom Examples.request
              (hd VUndefined
                 (sent (ExceptionFilter.catch Examples.development
                          Examples.quiet Examples.boom Examples.request)))
              (or_introl eq_refl))
    as (level & logObject & msg & status & Hrun & Hs & _).
  exists level, logObject, msg, status. split; [exact Hrun | exact Hs].
Defined.

(* ===================================================================== *)
(** ** Further properties of the outbound adapter and of the decorators *)
(* ===================================================================== *)

Section Outbound.
Import Types Core ResultInterceptor Decorators.

(** An array whose [length] is 2. *)
Lemma array_of_two (result : value) :
  isArray result && is_number_lit 2 (member result "length") = true ->
  exists a b, result = VArr [a; b].
Proof.
  intros H.
  destruct result as [| | | | | | items |]; try discriminate H.
  assert (Hlen : Z.of_nat (List.length items) = 2%Z)
    by (apply Z.eqb_eq; exact H).
  destruct items as [| a [| b [| c items]]]; simpl List.length in Hlen;
    try lia.
  now exists a, b.
Qed.

(** X20.  What the outbound adapter lets through always is an object
    with a [success] key, and the adapter is idempotent: given its own
    output again, at any later time, it returns it unchanged. *)
Theorem project_idempotent (rt rt' : Runtime) (result out : value) :
  project rt result = Normal out ->
  in_ "success" out = true /\
  typeof out = "object" /\
  project rt' out = Normal out /\
  intercept rt' (intercept rt (Normal result)) = intercept rt (Normal result).
Proof.
  intros Hrun.
  assert (Hout : truthy out && String.eqb (typeof out) "object"
                 && in_ "success" out = true).
  { unfold project in Hrun.
    destruct (truthy result && String.eqb (typeof result) "object"
              && in_ "success" result) eqn:Hpass.
    - now injection Hrun as <-.
    - destruct (isArray result
                && is_number_lit 2 (member result "length")) eqn:Hpair.
      + destruct (negb (is_null (member result "1"))); [discriminate |].
        now injection Hrun as <-.
      + now injection Hrun as <-. }
  assert (Hfix : project rt' out = Normal out)
    by (unfold project; now rewrite Hout).
  apply andb_prop in Hout. destruct Hout as [Hout Hin].
  apply andb_prop in Hout. destruct Hout as [_ Htype].
  apply String.eqb_eq in Htype.
  repeat split; try assumption.
  unfold intercept. rewrite Hrun. simpl. now rewrite Hfix.
Qed.

Lemma project_idempotent_witness :
  project Examples.development
    (successResponse Examples.production (VStr "ada"))
  = Normal (successResponse Examples.production (VStr "ada")).
Proof.
  exact (proj1 (proj2 (proj2 (@project_idempotent Examples.production
           Examples.development (to_array (Ok (VStr "ada")))
           (successResponse Examples.production (VStr "ada")) eq_refl)))).
Defined.

(** X21.  The outbound adapter throws only for a handler that threw,
    or returned an array of exactly two elements whose second is not
    [null]; what it throws then is that second element.  For every
    other return value, [null], [undefined], primitives, arrays of
    other lengths, objects without a [success] key, it produces
    [{success: true, data, timestamp}] with the value as [data]. *)
Theorem intercept_throws_only_pairs (rt : Runtime) (result thrown : value) :
  (project rt result = Throw thrown ->
     exists a, result = VArr [a; thrown] /\ thrown <> VNull) /\
  (in_ "success" result = false ->
   (forall a b, result <> VArr [a; b]) ->
     intercept rt (Normal result) =
       Normal (VObj (Obj ObjectC
                       [ ("success", VBool true);
                         ("data", result);
                         ("timestamp", VStr (toISOString rt (clock rt))) ]))).
Proof.
  split.
  - unfold project.
    destruct (truthy result && String.eqb (typeof result) "object"
              && in_ "success" result); [discriminate |].
    destruct (isArray result
              && is_number_lit 2 (member result "length")) eqn:Hpair;
      [| discriminate].
    destruct (array_of_two result Hpair) as (a & b & ->). simpl.
    destruct (is_null b) eqn:Hb; simpl; [discriminate |].
    intros H. injection H as <-. exists a. split; [reflexivity |].
    intros ->. discriminate.
  - intros Hin Hpair. unfold intercept, project.
    rewrite Hin, andb_false_r.
    destruct (isArray result
              && is_number_lit 2 (member result "length")) eqn:Htwo.
    + destruct (array_of_two result Htwo) as (a & b & ->).
      now destruct (Hpair a b).
    + reflexivity.
Qed.

Lemma intercept_throws_only_pairs_witness :
  intercept Examples.production (Normal VNull)
    = Normal (VObj (Obj ObjectC
                      [ ("success", VBool true);
                        ("data", VNull);
                        ("timestamp", VStr (Examples.iso 0)) ])) /\
  intercept Examples.production (Normal (VArr [VNum 1; VNum 2; VNum 3]))
    = Normal (VObj (Obj ObjectC
                      [ ("success", VBool true);
                        ("data", VArr [VNum 1; VNum 2; VNum 3]);
                        ("timestamp", VStr (Examples.iso 0)) ])).
Proof.
  split.
  - exact (proj2 (intercept_throws_only_pairs Examples.production VNull VNull)
             eq_refl ltac:(discriminate)).
  - exact (proj2 (intercept_throws_only_pairs Examples.production
                    (VArr [VNum 1; VNum 2; VNum 3]) VNull)
             eq_refl ltac:(discriminate)).
Defined.

(** X22.  The [UnwrapResult] decorator treats [request.result] as the
    outbound adapter treats a return value: on a tuple it does what
    [unwrap] does, on any two-element array it throws exactly when the
    adapter throws, and the same value; anything else it returns as it
    is, an object with a [success] key included. *)
Theorem UnwrapResult_is_unwrap (rt : Runtime) (r : Result) (a b v : value) :
  UnwrapResult (to_array r) = unwrap r /\
  (forall thrown,
      UnwrapResult (VArr [a; b]) = Throw thrown <->
      project rt (VArr [a; b]) = Throw thrown) /\
  (UnwrapResult (VArr [a; b]) = Normal a <->
   project rt (VArr [a; b]) = Normal (successResponse rt a)) /\
  ((forall x y, v <> VArr [x; y]) -> UnwrapResult v = Normal v).
Proof.
  split; [| split; [| split]].
  - destruct r as [x e]. unfold UnwrapResult, unwrap, to_array. simpl.
    now destruct (is_null e).
  - intros thrown. unfold UnwrapResult. rewrite project_pair. simpl.
    destruct (is_null b); simpl; split; congruence.
  - unfold UnwrapResult. rewrite project_pair. simpl.
    destruct (is_null b); simpl; split; congruence.
  - intros Hv. unfold UnwrapResult.
    destruct (isArray v && is_number_lit 2 (member v "length")) eqn:Htwo.
    + destruct (array_of_two v Htwo) as (x & y & ->).
      now destruct (Hv x y).
    + reflexivity.
Qed.

Lemma UnwrapResult_is_unwrap_witness :
  UnwrapResult (successResponse Examples.production (VNum 1))
  = Normal (successResponse Examples.production (VNum 1)).
Proof.
  exact (proj2 (proj2 (proj2 (UnwrapResult_is_unwrap Examples.production
           (Ok VNull) VNull VNull
           (successResponse Examples.production (VNum 1)))))
         ltac:(discriminate)).
Defined.



End Outbound.

(* ===================================================================== *)
(** ** Properties of the module registration *)
(* ===================================================================== *)

Section Registration.
Import GoErrorsModule.

(** The interceptors among a list of providers, in order. *)
Lemma interceptors_forRoot (options : option GoErrorsModuleOptions) :
  List.map supplies
    (filter (fun p => match provide p with APP_INTERCEPTOR => true | _ => false end)
       (forRoot options))
  = ((if match options with
         | Some o => match useResultInterceptor o with Some b => b | None => true end
         | None => true
         end
      then [ResultInterceptor] else [])
     ++
     (if match options with
         | Some o => match useErrorLoggingInterceptor o with Some b => b | None => false end
         | None => false
         end
      then [ErrorLoggingInterceptor] else []))%list.
Proof.
  destruct options as [[[[|] |] [[|] |]] |]; reflexivity.
Qed.

(** X24.  [forRoot] always registers one exception filter, built from
    the logger; it registers the [ResultInterceptor] unless
    [useResultInterceptor] is [false], and the [ErrorLoggingInterceptor]
    only if [useErrorLoggingInterceptor] is [true], in that order.
    [forRootAsync] registers the filter and the logger but never an
    interceptor, whatever options its factory returns. *)
Theorem module_registration (options : option GoErrorsModuleOptions)
    (inject : option (list token)) :
  let interceptors providers :=
    List.map supplies
      (filter (fun p => match provide p with
                        | APP_INTERCEPTOR => true
                        | _ => false
                        end) providers) in
  let filters providers :=
    filter (fun p => match provide p with APP_FILTER => true | _ => false end)
      providers in
  filters (forRoot options)
    = [ {| provide := APP_FILTER; via := useFactory;
           supplies := NewGoStyleExceptionFilter; inject := [ERROR_LOGGER] |} ] /\
  filters (forRootAsync inject) = filters (forRoot options) /\
  (In ResultInterceptor (interceptors (forRoot options)) <->
   forall o, options = Some o -> useResultInterceptor o <> Some false) /\
  (In ErrorLoggingInterceptor (interceptors (forRoot options)) <->
   exists o, options = Some o /\ useErrorLoggingInterceptor o = Some true) /\
  interceptors (forRoot None) = [ResultInterceptor] /\
  interceptors (forRootAsync inject) = [].
Proof.
  cbv zeta.
  split; [now destruct options as [[[[|] |] [[|] |]] |] |].
  split; [now destruct options as [[[[|] |] [[|] |]] |] |].
  split; [| split; [| split; reflexivity]].
  - rewrite interceptors_forRoot.
    destruct options as [[[[|] |] [[|] |]] |]; simpl; split;
      try (intros _ o Ho; injection Ho as <-; simpl; discriminate);
      try (intros; tauto);
      try (intros [H | H]; (discriminate || contradiction));
      try (intros H; exfalso; now apply (H _ eq_refl)); try discriminate;
      intros; auto.
  - rewrite interceptors_forRoot.
    destruct options as [[[[|] |] [[|] |]] |]; simpl; split;
      try (intros _; eexists; split; reflexivity);
      try (intros (o & Ho & Hu); injection Ho as <-; simpl in Hu; discriminate);
      try (intros (o & Ho & Hu); discriminate);
      try (intros [H | [H | []]]; discriminate);
      try (intros [H | []]; discriminate);
      try contradiction; intros; auto.
Qed.

End Registration.

(** An [AppError] whose metadata is an [Error]: the error has no
    enumerable key of its own, so the body has no [context].  With a
    [statusCode] of 0 and an empty [code] the defaults are rendered. *)
Example scenario_error_metadata :
  let e := Errors.AppError Examples.production "lookup failed"
             (literal [ ("statusCode", VNum 0);
                        ("code", VStr "");
                        ("metadata", VObj Examples.boom) ])
             VUndefined true in
  List.map (fun body => (in_ "context" (member body "error"),
                         member (member body "error") "statusCode",
                         member (member body "error") "code"))
    (sent (ExceptionFilter.catch Examples.production Examples.quiet e
             Examples.request))
  = [(false, VNum 500, VStr "INTERNAL_ERROR")].
Proof. reflexivity. Qed.

(** An [AppError] whose metadata is itself an [AppError]: the
    properties its constructor assigned are enumerable, so the body
    has it as [context]. *)
Example scenario_app_error_metadata :
  let e := Errors.AppError Examples.production "lookup failed"
             (literal [("metadata", VObj Examples.notFound)])
             VUndefined true in
  List.map (fun body => (member (member body "error") "context",
                         Object_keys (member (member body "error") "context")))
    (sent (ExceptionFilter.catch Examples.production Examples.quiet e
             Examples.request))
  = [(VObj Examples.notFound,
      ["name"; "context"; "originalError"; "isOperational"])].
Proof. reflexivity. Qed.

(** An [HttpException] with a [null] response: the read of
    [message] raises before anything is logged or sent. *)
Example scenario_null_response :
  ExceptionFilter.catch Examples.development Examples.quiet
    (HttpException Examples.development VNull 400) Examples.request
  = ([], Throw (VObj (Obj TypeErrorC
                        [ ("message",
                            VStr "Cannot read properties of null (reading 'message')");
                          ("stack", VStr (stackTrace Examples.development)) ]))).
Proof. reflexivity. Qed.
